(** * SQL review workflow transitions of [sql/sql_workflow.py]

    A shallow embedding of the Django views [alter_run_date], [passed],
    [execute], [timing_task], [cancel], [get_workflow_status] and
    [osc_control], and the properties of the workflow state machine they
    implement.

    The views are written in a state-and-exception monad over a [World]:
    the persisted store (rolled back by [atomic]) and the journal of calls
    made to the collaborators the views import (audit gateway, schedule
    registry, task queue, notifier, execution engine). *)

From Stdlib Require Import ZArith String Ascii List Bool Lia.
From stdpp Require Import base option list gmap strings pretty.

Open Scope string_scope.
Open Scope list_scope.
Open Scope Z_scope.

(** ** Python values and library functions the views rely on

    A [str] is modelled by its UTF-8 bytes, and read as the sequence of its
    code points where the library looks at characters: comparing bytes
    compares code points. The character tables are those of Unicode 14.0
    (CPython 3.11). *)

Module Py.

(** A [workflow_id] is an [int] in the views that convert it and the raw
    form string in those that do not. *)
Inductive pyval :=
| PyInt (z : Z)
| PyStr (s : string).

(** Exceptions the views raise or receive. *)
Inductive exn :=
| ValueError
| PermissionDenied
| DoesNotExist
| DatabaseError
| ValidationError
| CollaboratorError (msg : string).

(** *** Code points *)

Definition continuation (b : Z) : bool := (128 <=? b) && (b <? 192).

(** UTF-8 decoding. Bytes that are no UTF-8 stand for no [str]; they read
    as U+FFFD, as when Django decodes a form. *)
Fixpoint utf8_decode (l : list Z) : list Z :=
  match l with
  | [] => []
  | b0 :: r0 =>
      if b0 <? 128 then b0 :: utf8_decode r0
      else
        match r0 with
        | b1 :: r1 =>
            if (194 <=? b0) && (b0 <? 224) && continuation b1
            then ((b0 - 192) * 64 + (b1 - 128)) :: utf8_decode r1
            else
              match r1 with
              | b2 :: r2 =>
                  let c3 := (b0 - 224) * 4096 + (b1 - 128) * 64 + (b2 - 128) in
                  if (224 <=? b0) && (b0 <? 240) && continuation b1 && continuation b2
                     && (2048 <=? c3) && negb ((55296 <=? c3) && (c3 <? 57344))
                  then c3 :: utf8_decode r2
                  else
                    match r2 with
                    | b3 :: r3 =>
                        let c4 := (b0 - 240) * 262144 + (b1 - 128) * 4096
                                  + (b2 - 128) * 64 + (b3 - 128) in
                        if (240 <=? b0) && (b0 <? 245) && continuation b1
                           && continuation b2 && continuation b3
                           && (65536 <=? c4) && (c4 <=? 1114111)
                        then c4 :: utf8_decode r3
                        else 65533 :: utf8_decode r0
                    | [] => 65533 :: utf8_decode r0
                    end
              | [] => 65533 :: utf8_decode r0
              end
        | [] => [65533]
        end
  end.

Definition byte (c : ascii) : Z := Z.of_N (N_of_ascii c).

(** The code points of a [str]. *)
Definition code_points (s : string) : list Z :=
  utf8_decode (map byte (list_ascii_of_string s)).

(** The code points of the digits zero, one for each run of ten decimal
    digits (general category Nd). *)
Definition decimal_zeros : list Z :=
  [48; 1632; 1776; 1984; 2406; 2534; 2662; 2790; 2918; 3046; 3174; 3302; 3430;
   3558; 3664; 3792; 3872; 4160; 4240; 6112; 6160; 6470; 6608; 6784; 6800;
   6992; 7088; 7232; 7248; 42528; 43216; 43264; 43472; 43504; 43600; 44016;
   65296; 66720; 68912; 69734; 69872; 69942; 70096; 70384; 70736; 70864;
   71248; 71360; 71472; 71904; 72016; 72784; 73040; 73120; 92768; 92864;
   93008; 120782; 120792; 120802; 120812; 120822; 123200; 123632; 125264;
   130032].

(** [Py_UNICODE_TODECIMAL]: the value of a decimal digit. *)
Definition decimal (c : Z) : option Z :=
  (fun zero => c - zero) <$> find (fun zero => (zero <=? c) && (c <? zero + 10)) decimal_zeros.

(** [str.isdecimal] of one character, the \d of [re]. *)
Definition isdecimal (c : Z) : bool :=
  match decimal c with Some _ => true | None => false end.

(** [Py_UNICODE_ISSPACE], [str.isspace] of one character, the \s of [re]. *)
Definition isspace (c : Z) : bool :=
  ((9 <=? c) && (c <=? 13)) || ((28 <=? c) && (c <=? 32)) || (c =? 133) || (c =? 160)
  || (c =? 5760) || ((8192 <=? c) && (c <=? 8202)) || (c =? 8232) || (c =? 8233)
  || (c =? 8239) || (c =? 8287) || (c =? 12288).

(** *** [int] of a [str] *)

(** [_PyUnicode_TransformDecimalAndSpaceToASCII]: an ASCII string is taken
    as it is; in any other, decimal digits become ASCII digits and white
    space from U+007F on becomes a blank, and the string ends with "?" at
    the first character from U+007F on that is neither. *)
Fixpoint transform (l : list Z) : list Z :=
  match l with
  | [] => []
  | ch :: r =>
      if ch <? 127 then ch :: transform r
      else if isspace ch then 32 :: transform r
      else match decimal ch with
           | Some d => (48 + d) :: transform r
           | None => [63]
           end
  end.

Definition to_ascii_digits (l : list Z) : list Z :=
  if forallb (fun ch => ch <? 128) l then l else transform l.

(** [Py_ISSPACE]: the white space of C. *)
Definition c_isspace (c : Z) : bool := ((9 <=? c) && (c <=? 13)) || (c =? 32).

Fixpoint skip_spaces (l : list Z) : list Z :=
  match l with
  | c :: r => if c_isspace c then skip_spaces r else l
  | [] => []
  end.

Definition digit_value (c : Z) : option Z :=
  if (48 <=? c) && (c <=? 57) then Some (c - 48) else None.

(** The scan of the digits in [PyLong_FromString]: digits and single
    underscores, up to the first other character. It gives the value, the
    number of digits and what is left, and fails on two underscores in a
    row and on an underscore at the end. *)
Fixpoint scan_digits (acc digits : Z) (prev_underscore : bool) (l : list Z)
  : option (Z * Z * list Z) :=
  match l with
  | c :: r =>
      match digit_value c with
      | Some d => scan_digits (10 * acc + d) (digits + 1) false r
      | None =>
          if c =? 95
          then if prev_underscore then None else scan_digits acc digits true r
          else if prev_underscore then None else Some (acc, digits, l)
      end
  | [] => if prev_underscore then None else Some (acc, digits, [])
  end.

(** [sys.get_int_max_str_digits()], by default. *)
Definition int_max_str_digits : Z := 4300.

(** [PyLong_FromString] in base 10: white space, a sign, the digits,
    white space, and nothing more. *)
Definition long_from_string (l : list Z) : option Z :=
  let l := skip_spaces l in
  let '(negative, l) :=
    match l with
    | 43 :: r => (false, r)
    | 45 :: r => (true, r)
    | _ => (false, l)
    end in
  match l with
  | 95 :: _ => None
  | _ =>
      match scan_digits 0 0 false l with
      | Some (value, digits, rest) =>
          if (int_max_str_digits <? digits) || (digits =? 0) then None
          else
            match skip_spaces rest with
            | [] => Some (if negative then - value else value)
            | _ => None
            end
      | None => None
      end
  end.

(** [int(x)] for a [str] given by its code points. *)
Definition int_of_code_points (l : list Z) : option Z :=
  long_from_string (to_ascii_digits l).

(** [int(s)] for a [str]: [None] stands for [ValueError]. *)
Definition int (s : string) : option Z := int_of_code_points (code_points s).

(** [s.split(sep)] for a one-character separator. *)
Fixpoint split (sep : ascii) (s : string) : list string :=
  match s with
  | EmptyString => [EmptyString]
  | String c r =>
      if Ascii.eqb c sep then EmptyString :: split sep r
      else match split sep r with
           | h :: t => String c h :: t
           | [] => [String c EmptyString]
           end
  end.

(** [sep.join(l)] *)
Fixpoint join (sep : ascii) (l : list string) : string :=
  match l with
  | [] => EmptyString
  | [x] => x
  | x :: r => x +:+ String sep (join sep r)
  end.

(** Whether the character [c] occurs in [s]. *)
Fixpoint has_char (c : ascii) (s : string) : bool :=
  match s with
  | EmptyString => false
  | String a r => Ascii.eqb a c || has_char c r
  end.

(** [x in l] for a list of strings. *)
Definition contains (x : string) (l : list string) : bool :=
  existsb (String.eqb x) l.

(** [s1 < s2] on [str]: code point by code point, a proper prefix first. *)
Definition lt (s1 s2 : string) : bool := String.ltb s1 s2.

End Py.

Export Py (pyval(..), exn(..)).

(** ** [datetime] *)

Module Datetime.

Record datetime := {
  year : Z;
  month : Z;
  day : Z;
  hour : Z;
  minute : Z;
  second : Z
}.

Definition digit (n : Z) : ascii := ascii_of_nat (48 + Z.to_nat n).

Definition pad2 (n : Z) : string :=
  String (digit (n / 10 mod 10)) (String (digit (n mod 10)) EmptyString).

Definition pad4 (n : Z) : string :=
  String (digit (n / 1000 mod 10)) (String (digit (n / 100 mod 10)) (pad2 n)).

(** [t.strftime("%Y-%m-%d %H:%M")], the year on four digits *)
Definition strftime_minutes (t : datetime) : string :=
  pad4 (year t) +:+ "-" +:+ pad2 (month t) +:+ "-" +:+ pad2 (day t) +:+ " "
  +:+ pad2 (hour t) +:+ ":" +:+ pad2 (minute t).

(** [t.strftime("%Y-%m-%d %H:%M:%S")], which is also [str(t)] *)
Definition strftime_seconds (t : datetime) : string :=
  strftime_minutes t +:+ ":" +:+ pad2 (second t).

Definition is_leap (y : Z) : bool :=
  (y mod 4 =? 0) && (negb (y mod 100 =? 0) || (y mod 400 =? 0)).

Definition days_in_month (y m : Z) : Z :=
  match m with
  | 2 => if is_leap y then 29 else 28
  | 4 | 6 | 9 | 11 => 30
  | _ => 31
  end.

(** What the [datetime] constructor accepts. *)
Definition valid (t : datetime) : bool :=
  (1 <=? year t) && (year t <=? 9999) && (1 <=? month t) && (month t <=? 12)
  && (1 <=? day t) && (day t <=? days_in_month (year t) (month t))
  && (0 <=? hour t) && (hour t <=? 23) && (0 <=? minute t) && (minute t <=? 59)
  && (0 <=? second t) && (second t <=? 59).

(** Chronological order, as [datetime.__lt__]. *)
Definition key (t : datetime) : list Z :=
  [year t; month t; day t; hour t; minute t; second t].

Fixpoint lex_lt (a b : list Z) : bool :=
  match a, b with
  | x :: a', y :: b' => (x <? y) || ((x =? y) && lex_lt a' b')
  | [], _ :: _ => true
  | _, _ => false
  end.

Definition before (a b : datetime) : bool := lex_lt (key a) (key b).

(** *** [strptime(s, "%Y-%m-%d %H:%M")]

    [_strptime] turns the format into the regular expression
    [(?P<Y>\d\d\d\d)-(?P<m>1[0-2]|0[1-9]|[1-9])-(?P<d>3[0-1]|[1-2]\d|0[1-9]|[1-9]| [1-9])\s+(?P<H>2[0-3]|[0-1]\d|\d):(?P<M>[0-5]\d|\d)],
    matches it at the start of the string, refuses what the match leaves
    over, converts the groups with [int] and builds the [datetime]. A
    character class is a predicate on code points; \d and \s are the
    Unicode ones, a range like [0-2] is ASCII. *)

Definition char_class := Z -> bool.

Definition re_digit : char_class := Py.isdecimal.
Definition re_space : char_class := Py.isspace.
Definition in_range (lo hi : string) : char_class :=
  fun c =>
    match Py.code_points lo, Py.code_points hi with
    | [a], [b] => (a <=? c) && (c <=? b)
    | _, _ => false
    end.
Definition is_char (x : string) : char_class := in_range x x.

(** One alternative of a group, a sequence of classes, at the start of
    [l]: the text matched and the rest. *)
Fixpoint sequence (ps : list char_class) (l : list Z) : option (list Z * list Z) :=
  match ps with
  | [] => Some ([], l)
  | p :: ps' =>
      match l with
      | c :: r =>
          if p c
          then match sequence ps' r with
               | Some (g, rest) => Some (c :: g, rest)
               | None => None
               end
          else None
      | [] => None
      end
  end.

(** The matches of a group, in the order its alternatives are tried. *)
Definition alternatives (alts : list (list char_class)) (l : list Z)
  : list (list Z * list Z) :=
  omap (fun ps => sequence ps l) alts.

Definition literal (x : string) := alternatives [[is_char x]].

Definition directive_Y := alternatives [[re_digit; re_digit; re_digit; re_digit]].
Definition directive_m :=
  alternatives [[is_char "1"; in_range "0" "2"]; [is_char "0"; in_range "1" "9"];
                [in_range "1" "9"]].
Definition directive_d :=
  alternatives [[is_char "3"; in_range "0" "1"]; [in_range "1" "2"; re_digit];
                [is_char "0"; in_range "1" "9"]; [in_range "1" "9"];
                [is_char " "; in_range "1" "9"]].
Definition directive_H :=
  alternatives [[is_char "2"; in_range "0" "3"]; [in_range "0" "1"; re_digit];
                [re_digit]].
Definition directive_M := alternatives [[in_range "0" "5"; re_digit]; [re_digit]].

(** The rests after a run of characters of class [p], the longest run
    first: a greedy repetition and its backtracking. *)
Fixpoint runs (p : char_class) (l : list Z) : list (list Z) :=
  match l with
  | c :: r => if p c then runs p r ++ [l] else [l]
  | [] => [[]]
  end.

(** \s+ *)
Definition spaces (l : list Z) : list (list Z * list Z) :=
  match l with
  | c :: r => if re_space c then map (fun rest => ([], rest)) (runs re_space r) else []
  | [] => []
  end.

(** The first match whose continuation succeeds: the backtracking of
    the regular expression engine. *)
Fixpoint first_success {A B} (ms : list (A * list Z)) (k : A -> list Z -> option B)
  : option B :=
  match ms with
  | [] => None
  | (v, r) :: ms' =>
      match k v r with
      | Some b => Some b
      | None => first_success ms' k
      end
  end.

(** The groups of a match and the text it leaves over. *)
Record re_match := {
  found_Y : list Z;
  found_m : list Z;
  found_d : list Z;
  found_H : list Z;
  found_M : list Z;
  unconverted : list Z
}.

(** [format_regex.match(data_string)] *)
Definition regex_match (l : list Z) : option re_match :=
  first_success (directive_Y l) (fun gY l =>
  first_success (literal "-" l) (fun _ l =>
  first_success (directive_m l) (fun gm l =>
  first_success (literal "-" l) (fun _ l =>
  first_success (directive_d l) (fun gd l =>
  first_success (spaces l) (fun _ l =>
  first_success (directive_H l) (fun gH l =>
  first_success (literal ":" l) (fun _ l =>
  first_success (directive_M l) (fun gM l =>
    Some {| found_Y := gY; found_m := gm; found_d := gd; found_H := gH;
            found_M := gM; unconverted := l |}))))))))).

(** [datetime.datetime.strptime(s, "%Y-%m-%d %H:%M")]; [None] stands for
    [ValueError]. *)
Definition strptime_minutes (s : string) : option datetime :=
  match regex_match (Py.code_points s) with
  | Some f =>
      match unconverted f with
      | [] =>
          match Py.int_of_code_points (found_Y f), Py.int_of_code_points (found_m f),
                Py.int_of_code_points (found_d f), Py.int_of_code_points (found_H f),
                Py.int_of_code_points (found_M f) with
          | Some y, Some mo, Some da, Some h, Some mi =>
              let t := {| year := y; month := mo; day := da;
                          hour := h; minute := mi; second := 0 |} in
              if valid t then Some t else None
          | _, _, _, _, _ => None
          end
      | _ => None
      end
  | None => None
  end.

End Datetime.

Export Datetime.

(** ** Data model *)

(** [request.user] *)
Record User := {
  username : string;
  display : string;
  is_superuser : bool;
  permissions : list string
}.

Definition has_perm (u : User) (perm : string) : bool :=
  is_superuser u || Py.contains perm (permissions u).

Record HttpRequest := {
  user : User;
  POST : gmap string string
}.

(** A row of [SqlWorkflow]; the primary key [id] is the key of the table. *)
Record SqlWorkflow := {
  status : string;
  engineer : string;
  run_date_start : option datetime;
  run_date_end : option datetime;
  finish_time : option datetime;
  instance : string
}.

Definition set_status (s : string) (r : SqlWorkflow) : SqlWorkflow :=
  {| status := s; engineer := engineer r; run_date_start := run_date_start r;
     run_date_end := run_date_end r; finish_time := finish_time r;
     instance := instance r |}.

Definition set_finish_time (t : datetime) (r : SqlWorkflow) : SqlWorkflow :=
  {| status := status r; engineer := engineer r; run_date_start := run_date_start r;
     run_date_end := run_date_end r; finish_time := Some t;
     instance := instance r |}.

Definition set_run_dates (a b : option datetime) (r : SqlWorkflow) : SqlWorkflow :=
  {| status := status r; engineer := engineer r; run_date_start := a;
     run_date_end := b; finish_time := finish_time r;
     instance := instance r |}.

(** The audit record of a workflow, owned by the audit gateway. *)
Record WorkflowAudit := {
  audit_id : Z;
  workflow_id : Z;
  workflow_type : Z;
  current_status : Z
}.

(** The arguments of one [Audit.audit] call. *)
Record Decision := {
  decided_audit : Z;
  decided_status : Z;
  decided_by : string;
  decided_remark : string
}.

(** The arguments of one [Audit.add_log] call. *)
Record LogEntry := {
  log_audit_id : Z;
  operation_type : Z;
  operation_type_desc : string;
  operation_info : string;
  operator : string;
  operator_display : string
}.

(** A named, one-off entry of the schedule registry. *)
Record Schedule := {
  next_run : datetime;
  scheduled_workflow : pyval
}.

(** What [async_task] is given. *)
Inductive Task :=
| notify_for_audit (audit : Z) (audit_remark : string) (timeout : Z) (task_name : string)
| execute_sql (workflow : Z) (by_user : User) (hook : string) (timeout : Z)
    (task_name : string).

(** The persisted state, everything a transaction rolls back: the
    workflow table, the records, decision trail and log of the audit
    gateway, and the schedule registry, which keeps its entries in the
    same database. *)
Record Store := {
  workflows : gmap Z SqlWorkflow;
  audits : list WorkflowAudit;
  decisions : list Decision;
  audit_log : list LogEntry;
  schedules : gmap string Schedule
}.

(** Calls made to the collaborators, and the transaction boundaries. The
    journal is not rolled back: a call that was made was made. *)
Inductive Call :=
| call_can_review (u : User) (wid : pyval) (wtype : Z)
| call_can_execute (u : User) (wid : pyval)
| call_can_cancel (u : User) (wid : pyval)
| call_can_timingtask (u : User) (wid : pyval)
| call_on_correct_time_period (wid : pyval) (run_date : option datetime)
| call_detail_by_workflow_id (wid : pyval) (wtype : Z)
| call_audit (d : Decision)
| call_add_log (e : LogEntry)
| call_add_sql_schedule (name : string) (run_date : datetime) (wid : pyval)
| call_del_schedule (name : string)
| call_async_task (t : Task)
| call_notify_for_execute (wid : Z) (wf : SqlWorkflow)
| call_osc_control (inst : string) (command sqlsha1 : option string)
| tx_begin
| tx_commit
| tx_rollback.

Record World := {
  db : Store;
  journal : list Call
}.

(** The [errMsg] of the error page: a message, or the exception caught. *)
Inductive errMsg :=
| Message (s : string)
| Caught (e : exn).

(** What a view returns. *)
Inductive HttpResponse :=
| render_error (msg : errMsg)
| HttpResponseRedirect (detail_of : pyval)
| osc_response (total : nat) (rows : list string) (msg : option errMsg).

(** [WorkflowDict] of [common.utils.const]: the constants the views read. *)
Record WorkflowDict := {
  sqlreview : Z;
  audit_success : Z;
  audit_reject : Z;
  audit_abort : Z
}.

(** The collaborators the views import, as far as the views depend on
    them: what the guards answer, the aggregate status a decision leads
    to, what the engine reports, whether a call raises, the clock and the
    configured [notify_phase_control]; and [DateTimeField.to_python], what
    the columns [run_date_start] and [run_date_end], declared in
    [sql/models.py], make of a text: the time it denotes, or [None] for a
    text the field refuses with [ValidationError]. *)
Record Env := {
  const : WorkflowDict;
  now : datetime;
  notify_phase_control : option string;
  DateTimeField_to_python : string -> option datetime;
  ext_faults : Store -> Call -> option exn;
  ext_can_review : Store -> User -> pyval -> Z -> bool;
  ext_can_execute : Store -> User -> pyval -> bool;
  ext_can_cancel : Store -> User -> pyval -> bool;
  ext_can_timingtask : Store -> User -> pyval -> bool;
  ext_on_correct_time_period : Store -> pyval -> option datetime -> bool;
  ext_audit_status : Store -> Decision -> Z;
  ext_osc_control :
    Store -> string -> option string -> option string -> list string * option string
}.

(** ** The monad of the views: state and exceptions *)

Inductive outcome (A : Type) :=
| Return (a : A)
| Raise (e : exn).

Arguments Return {A} a.
Arguments Raise {A} e.

Definition M (A : Type) : Type := World -> outcome A * World.

Definition ret {A} (a : A) : M A := fun w => (Return a, w).

Definition raise {A} (e : exn) : M A := fun w => (Raise e, w).

Definition bind {A B} (m : M A) (k : A -> M B) : M B :=
  fun w =>
    match m w with
    | (Return a, w') => k a w'
    | (Raise e, w') => (Raise e, w')
    end.

Notation "'let*' x ':=' m 'in' k" := (bind m (fun x => k))
  (at level 10, x pattern, m at level 100, k at level 200).

(** [try: body / except Exception as e: handler / else: orelse] *)
Definition try_except_else {A B} (body : M A) (handler : exn -> M B)
    (orelse : A -> M B) : M B :=
  fun w =>
    match body w with
    | (Return a, w') => orelse a w'
    | (Raise e, w') => handler e w'
    end.

Definition record (c : Call) (w : World) : World :=
  {| db := db w; journal := journal w ++ [c] |}.

Definition with_db (f : Store -> Store) : M unit :=
  fun w => (Return tt, {| db := f (db w); journal := journal w |}).

Definition get_db : M Store := fun w => (Return (db w), w).

(** [with transaction.atomic(): body] *)
Definition atomic {A} (body : M A) : M A :=
  fun w =>
    match body (record tx_begin w) with
    | (Return a, w') => (Return a, record tx_commit w')
    | (Raise e, w') =>
        (Raise e, record tx_rollback {| db := db w; journal := journal w' |})
    end.

(** ** The collaborators *)

Section Views.

Variable env : Env.

(** A call to a collaborator: it is journalled, and it may raise. *)
Definition invoke (c : Call) : M unit :=
  fun w =>
    match ext_faults env (db w) c with
    | Some e => (Raise e, record c w)
    | None => (Return tt, record c w)
    end.

Definition Audit_can_review (u : User) (wid : pyval) (wtype : Z) : M bool :=
  let* _ := invoke (call_can_review u wid wtype) in
  let* st := get_db in
  ret (ext_can_review env st u wid wtype).

Definition can_execute (u : User) (wid : pyval) : M bool :=
  let* _ := invoke (call_can_execute u wid) in
  let* st := get_db in
  ret (ext_can_execute env st u wid).

Definition can_cancel (u : User) (wid : pyval) : M bool :=
  let* _ := invoke (call_can_cancel u wid) in
  let* st := get_db in
  ret (ext_can_cancel env st u wid).

Definition can_timingtask (u : User) (wid : pyval) : M bool :=
  let* _ := invoke (call_can_timingtask u wid) in
  let* st := get_db in
  ret (ext_can_timingtask env st u wid).

Definition on_correct_time_period (wid : pyval) (run_date : option datetime) : M bool :=
  let* _ := invoke (call_on_correct_time_period wid run_date) in
  let* st := get_db in
  ret (ext_on_correct_time_period env st wid run_date).

(** The value an integer column is looked up with: Django converts a
    string with [int]. *)
Definition to_pk (wid : pyval) : option Z :=
  match wid with
  | PyInt z => Some z
  | PyStr s => Py.int s
  end.

(** [SqlWorkflow.objects.get(id=wid)] *)
Definition objects_get (wid : pyval) : M (Z * SqlWorkflow) :=
  match to_pk wid with
  | None => raise ValueError
  | Some k =>
      let* st := get_db in
      match workflows st !! k with
      | Some r => ret (k, r)
      | None => raise DoesNotExist
      end
  end.

Definition put_workflow (k : Z) (r : SqlWorkflow) (st : Store) : Store :=
  {| workflows := <[k := r]> (workflows st); audits := audits st;
     decisions := decisions st; audit_log := audit_log st;
     schedules := schedules st |}.

(** [obj.save()]: the row is updated, or inserted when there is none. *)
Definition save (k : Z) (r : SqlWorkflow) : M unit :=
  with_db (put_workflow k r).

(** [SqlWorkflow(id=k, ...).save(update_fields=[...])]: an update of the
    listed columns, which raises when no row has this key. *)
Definition save_update_fields (k : Z) (f : SqlWorkflow -> SqlWorkflow) : M unit :=
  let* st := get_db in
  match workflows st !! k with
  | Some r => with_db (put_workflow k (f r))
  | None => raise DatabaseError
  end.

Definition audit_of (k wtype : Z) (a : WorkflowAudit) : bool :=
  (workflow_id a =? k) && (workflow_type a =? wtype).

(** Modelled from the spec: [Audit.detail_by_workflow_id] of
    [sql.utils.workflow_audit], the record kept for (workflow_id,
    workflow_type); it raises when there is none. *)
Definition Audit_detail_by_workflow_id (wid : pyval) (wtype : Z) : M WorkflowAudit :=
  let* _ := invoke (call_detail_by_workflow_id wid wtype) in
  match to_pk wid with
  | None => raise ValueError
  | Some k =>
      let* st := get_db in
      match find (audit_of k wtype) (audits st) with
      | Some a => ret a
      | None => raise DoesNotExist
      end
  end.

Definition decide_audit (d : Decision) (result : Z) (a : WorkflowAudit) : WorkflowAudit :=
  if audit_id a =? decided_audit d
  then {| audit_id := audit_id a; workflow_id := workflow_id a;
          workflow_type := workflow_type a; current_status := result |}
  else a.

Definition put_decision (d : Decision) (result : Z) (st : Store) : Store :=
  {| workflows := workflows st; audits := map (decide_audit d result) (audits st);
     decisions := decisions st ++ [d]; audit_log := audit_log st;
     schedules := schedules st |}.

(** Modelled from the spec: [Audit.audit] of [sql.utils.workflow_audit]
    records the decision against the audit trail and returns the
    resulting aggregate status, which becomes the record's
    [current_status]. *)
Definition Audit_audit (aid status_ : Z) (by_ remark : string) : M Z :=
  let d := {| decided_audit := aid; decided_status := status_;
              decided_by := by_; decided_remark := remark |} in
  let* _ := invoke (call_audit d) in
  let* st := get_db in
  let result := ext_audit_status env st d in
  let* _ := with_db (put_decision d result) in
  ret result.

Definition put_log (e : LogEntry) (st : Store) : Store :=
  {| workflows := workflows st; audits := audits st;
     decisions := decisions st; audit_log := audit_log st ++ [e];
     schedules := schedules st |}.

(** Modelled from the spec: [Audit.add_log] of [sql.utils.workflow_audit]
    appends one entry to the log. *)
Definition Audit_add_log (e : LogEntry) : M unit :=
  let* _ := invoke (call_add_log e) in
  with_db (put_log e).

Definition put_schedules (f : gmap string Schedule -> gmap string Schedule)
    (st : Store) : Store :=
  {| workflows := workflows st; audits := audits st;
     decisions := decisions st; audit_log := audit_log st;
     schedules := f (schedules st) |}.

(** Modelled from the spec: [add_sql_schedule] of [sql.utils.tasks], the
    registry's [add(name, trigger_time, payload)]; one entry per name. *)
Definition add_sql_schedule (name : string) (run_date : datetime) (wid : pyval) : M unit :=
  let* _ := invoke (call_add_sql_schedule name run_date wid) in
  with_db (put_schedules
             (insert name {| next_run := run_date; scheduled_workflow := wid |})).

(** Modelled from the spec: [del_schedule] of [sql.utils.tasks], the
    registry's [remove(name)], no error if absent. *)
Definition del_schedule (name : string) : M unit :=
  let* _ := invoke (call_del_schedule name) in
  with_db (put_schedules (delete name)).

(** [async_task(...)] of django_q: fire and forget. *)
Definition async_task (t : Task) : M unit := invoke (call_async_task t).

Definition notify_for_execute (wf : Z * SqlWorkflow) : M unit :=
  invoke (call_notify_for_execute (fst wf) (snd wf)).

(** [@permission_required(perm, raise_exception=True)] *)
Definition permission_required (perm : string)
    (view : HttpRequest -> M HttpResponse) (request : HttpRequest) : M HttpResponse :=
  if has_perm (user request) perm then view request else raise PermissionDenied.

(** [int(request.POST.get("workflow_id", 0))] *)
Definition int_workflow_id (request : HttpRequest) : M Z :=
  match POST request !! "workflow_id" with
  | None => ret 0
  | Some s =>
      match Py.int s with
      | Some z => ret z
      | None => raise ValueError
      end
  end.

(** The notification gate written out in [passed], [execute] and
    [cancel]:
    [phase in cfg.split(",") if cfg else True]
    for [cfg = SysConfig().get("notify_phase_control")]. *)
Definition is_notified (phase : string) (cfg : option string) : bool :=
  match cfg with
  | None => true
  | Some EmptyString => true
  | Some s => Py.contains phase (Py.split "," s)
  end.

(** [x or None] *)
Definition or_None (x : option string) : option string :=
  match x with
  | Some EmptyString => None
  | other => other
  end.

(** The value a [DateTimeField] is saved with: [None] as it is, a text
    through [to_python], which raises [ValidationError] for a text that
    denotes no time. The conversion comes first in [save]: the update
    reaches the database only with values the fields took. *)
Definition get_db_prep_save (x : option string) : M (option datetime) :=
  match x with
  | None => ret None
  | Some text =>
      match DateTimeField_to_python env text with
      | Some t => ret (Some t)
      | None => raise ValidationError
      end
  end.

(** [mode == s] for [mode = request.POST.get("mode")] *)
Definition is_str (x : option string) (s : string) : bool :=
  match x with
  | Some v => String.eqb v s
  | None => false
  end.

(** The engine of the workflow's instance, asked to control an OSC run. *)
Definition engine_osc_control (inst : string) (command sqlsha1 : option string)
  : M (list string * option string) :=
  let* _ := invoke (call_osc_control inst command sqlsha1) in
  let* st := get_db in
  ret (ext_osc_control env st inst command sqlsha1).

(** ** The views *)

Definition alter_run_date_view (request : HttpRequest) : M HttpResponse :=
  let* workflow_id := int_workflow_id request in
  let run_date_start := POST request !! "run_date_start" in
  let run_date_end := POST request !! "run_date_end" in
  if workflow_id =? 0 then ret (render_error (Message "workflow_id参数为空."))
  else
    let user := user request in
    let* allowed := Audit_can_review user (PyInt workflow_id) 2 in
    if negb allowed then ret (render_error (Message "你无权操作当前工单！"))
    else
      try_except_else
        (let* from_ := get_db_prep_save (or_None run_date_start) in
         let* to_ := get_db_prep_save (or_None run_date_end) in
         save_update_fields workflow_id (set_run_dates from_ to_))
        (fun msg => ret (render_error (Caught msg)))
        (fun _ => ret (HttpResponseRedirect (PyInt workflow_id))).

Definition alter_run_date : HttpRequest -> M HttpResponse :=
  permission_required "sql.sql_review" alter_run_date_view.

Definition passed_view (request : HttpRequest) : M HttpResponse :=
  let* workflow_id := int_workflow_id request in
  let audit_remark := default "" (POST request !! "audit_remark") in
  if workflow_id =? 0 then ret (render_error (Message "workflow_id参数为空."))
  else
    let user := user request in
    let* allowed := Audit_can_review user (PyInt workflow_id) 2 in
    if negb allowed then ret (render_error (Message "你无权操作当前工单！"))
    else
      try_except_else
        (atomic
           (let* detail :=
              Audit_detail_by_workflow_id (PyInt workflow_id) (sqlreview (const env)) in
            let audit_id := audit_id detail in
            let* audit_result :=
              Audit_audit audit_id (audit_success (const env)) (username user)
                audit_remark in
            let* _ :=
              if audit_result =? audit_success (const env)
              then save_update_fields workflow_id (set_status "workflow_review_pass")
              else ret tt in
            ret audit_id))
        (fun msg => ret (render_error (Caught msg)))
        (fun audit_id =>
           let* _ :=
             if is_notified "Pass" (notify_phase_control env)
             then async_task
                    (notify_for_audit audit_id audit_remark 60
                       ("sqlreview-pass-" +:+ pretty workflow_id))
             else ret tt in
           ret (HttpResponseRedirect (PyInt workflow_id))).

Definition passed : HttpRequest -> M HttpResponse :=
  permission_required "sql.sql_review" passed_view.

Definition execute (request : HttpRequest) : M HttpResponse :=
  let user := user request in
  if negb (has_perm user "sql.sql_execute"
           || has_perm user "sql.sql_execute_for_resource_group")
  then raise PermissionDenied
  else
    let* workflow_id := int_workflow_id request in
    if workflow_id =? 0 then ret (render_error (Message "workflow_id参数为空."))
    else
      let* allowed := can_execute user (PyInt workflow_id) in
      if negb allowed then ret (render_error (Message "你无权操作当前工单！"))
      else
        let* in_window := on_correct_time_period (PyInt workflow_id) None in
        if negb in_window
        then ret (render_error
                    (Message "不在可执行时间范围内，如果需要修改执行时间请重新提交工单!"))
        else
          let* detail :=
            Audit_detail_by_workflow_id (PyInt workflow_id) (sqlreview (const env)) in
          let audit_id := audit_id detail in
          let mode := POST request !! "mode" in
          let* _ :=
            if is_str mode "auto" then
              let* _ := save_update_fields workflow_id (set_status "workflow_queuing") in
              let schedule_name := "sqlreview-timing-" +:+ pretty workflow_id in
              let* _ := del_schedule schedule_name in
              let* _ :=
                async_task
                  (execute_sql workflow_id user "sql.utils.execute_sql.execute_callback"
                     (-1) ("sqlreview-execute-" +:+ pretty workflow_id)) in
              Audit_add_log
                {| log_audit_id := audit_id; operation_type := 5;
                   operation_type_desc := "执行工单";
                   operation_info := "工单执行排队中";
                   operator := username user; operator_display := display user |}
            else if is_str mode "manual" then
              let* _ :=
                save_update_fields workflow_id
                  (fun r => set_finish_time (now env) (set_status "workflow_finish" r)) in
              let* _ :=
                Audit_add_log
                  {| log_audit_id := audit_id; operation_type := 6;
                     operation_type_desc := "手工工单";
                     operation_info := "确认手工执行结束";
                     operator := username user; operator_display := display user |} in
              if is_notified "Execute" (notify_phase_control env)
              then
                let* workflow := objects_get (PyInt workflow_id) in
                notify_for_execute workflow
              else ret tt
            else ret tt in
          ret (HttpResponseRedirect (PyInt workflow_id)).

Definition timing_task (request : HttpRequest) : M HttpResponse :=
  let user := user request in
  if negb (has_perm user "sql.sql_execute"
           || has_perm user "sql.sql_execute_for_resource_group")
  then raise PermissionDenied
  else
    match POST request !! "run_date", POST request !! "workflow_id" with
    | Some run_date, Some workflow_id =>
        if Py.lt run_date (strftime_seconds (now env))
        then ret (render_error (Message "时间不能小于当前时间"))
        else
          let* workflow_detail := objects_get (PyStr workflow_id) in
          let* allowed := can_timingtask user (PyStr workflow_id) in
          if negb allowed then ret (render_error (Message "你无权操作当前工单！"))
          else
            match strptime_minutes run_date with
            | None => raise ValueError
            | Some run_date =>
                let schedule_name := "sqlreview-timing-" +:+ workflow_id in
                let* in_window :=
                  on_correct_time_period (PyStr workflow_id) (Some run_date) in
                if negb in_window
                then ret (render_error
                            (Message "不在可执行时间范围内，如果需要修改执    行时间请重新提交工单!"))
                else
                  try_except_else
                    (atomic
                       (let* _ :=
                          save (fst workflow_detail)
                            (set_status "workflow_timingtask" (snd workflow_detail)) in
                        let* _ :=
                          add_sql_schedule schedule_name run_date (PyStr workflow_id) in
                        let* detail :=
                          Audit_detail_by_workflow_id (PyStr workflow_id)
                            (sqlreview (const env)) in
                        Audit_add_log
                          {| log_audit_id := audit_id detail; operation_type := 4;
                             operation_type_desc := "定时执行";
                             operation_info :=
                               "定时执行时间：" +:+ strftime_seconds run_date;
                             operator := username user;
                             operator_display := display user |}))
                    (fun msg => ret (render_error (Caught msg)))
                    (fun _ => ret (HttpResponseRedirect (PyStr workflow_id)))
            end
    | _, _ => ret (render_error (Message "时间不能为空"))
    end.

Definition cancel (request : HttpRequest) : M HttpResponse :=
  let* workflow_id := int_workflow_id request in
  if workflow_id =? 0 then ret (render_error (Message "workflow_id参数为空."))
  else
    let* workflow_detail := objects_get (PyInt workflow_id) in
    match POST request !! "cancel_remark" with
    | None => ret (render_error (Message "终止原因不能为空"))
    | Some audit_remark =>
        let user := user request in
        let* allowed := can_cancel user (PyInt workflow_id) in
        if negb allowed then ret (render_error (Message "你无权操作当前工单！"))
        else
          try_except_else
            (atomic
               (let* detail :=
                  Audit_detail_by_workflow_id (PyInt workflow_id)
                    (sqlreview (const env)) in
                let audit_id := audit_id detail in
                let* _ :=
                  if negb (String.eqb (status (snd workflow_detail)) "workflow_manreviewing")
                  then
                    if String.eqb (username user) (engineer (snd workflow_detail))
                    then
                      Audit_add_log
                        {| log_audit_id := audit_id; operation_type := 3;
                           operation_type_desc := "取消执行";
                           operation_info := "取消原因：" +:+ audit_remark;
                           operator := username user;
                           operator_display := display user |}
                    else
                      Audit_add_log
                        {| log_audit_id := audit_id; operation_type := 2;
                           operation_type_desc := "审批不通过";
                           operation_info := "审批备注：" +:+ audit_remark;
                           operator := username user;
                           operator_display := display user |}
                  else
                    if String.eqb (username user) (engineer (snd workflow_detail))
                    then
                      let* _ :=
                        Audit_audit audit_id (audit_abort (const env)) (username user)
                          audit_remark in
                      ret tt
                    else if has_perm user "sql.sql_review"
                    then
                      let* _ :=
                        Audit_audit audit_id (audit_reject (const env)) (username user)
                          audit_remark in
                      ret tt
                    else raise PermissionDenied in
                let* _ :=
                  if String.eqb (status (snd workflow_detail)) "workflow_timingtask"
                  then del_schedule ("sqlreview-timing-" +:+ pretty workflow_id)
                  else ret tt in
                save (fst workflow_detail)
                  (set_status "workflow_abort" (snd workflow_detail))))
            (fun msg => ret (render_error (Caught msg)))
            (fun _ =>
               let* _ :=
                 if is_notified "Cancel" (notify_phase_control env)
                 then
                   let* audit_detail :=
                     Audit_detail_by_workflow_id (PyInt workflow_id)
                       (sqlreview (const env)) in
                   if (current_status audit_detail =? audit_abort (const env))
                      || (current_status audit_detail =? audit_reject (const env))
                   then async_task
                          (notify_for_audit (audit_id audit_detail) audit_remark 60
                             ("sqlreview-cancel-" +:+ pretty workflow_id))
                   else ret tt
                 else ret tt in
               ret (HttpResponseRedirect (PyInt workflow_id)))
    end.

Definition osc_control (request : HttpRequest) : M HttpResponse :=
  let workflow_id := POST request !! "workflow_id" in
  let sqlsha1 := POST request !! "sqlsha1" in
  let command := POST request !! "command" in
  let* workflow :=
    match workflow_id with
    | Some s => objects_get (PyStr s)
    | None => raise DoesNotExist
    end in
  let execute_engine := instance (snd workflow) in
  try_except_else
    (engine_osc_control execute_engine command sqlsha1)
    (fun e => ret (osc_response 0 [] (Some (Caught e))))
    (fun execute_result =>
       let rows := fst execute_result in
       let error := snd execute_result in
       ret (osc_response (length rows) rows (Message <$> error))).

End Views.

(** ** Reading the journal *)

Definition audit_calls (j : list Call) : list Decision :=
  omap (fun c => match c with call_audit d => Some d | _ => None end) j.

Definition log_calls (j : list Call) : list LogEntry :=
  omap (fun c => match c with call_add_log e => Some e | _ => None end) j.

Definition enqueued (j : list Call) : list Task :=
  omap (fun c => match c with call_async_task t => Some t | _ => None end) j.

Definition deleted_schedules (j : list Call) : list string :=
  omap (fun c => match c with call_del_schedule n => Some n | _ => None end) j.

Definition began (j : list Call) : bool :=
  existsb (fun c => match c with tx_begin => true | _ => false end) j.

Definition committed (j : list Call) : bool :=
  existsb (fun c => match c with tx_commit => true | _ => false end) j.

Definition rolled_back (j : list Call) : bool :=
  existsb (fun c => match c with tx_rollback => true | _ => false end) j.

(** No collaborator raises. *)
Definition reliable (env : Env) : Prop :=
  forall st c, ext_faults env st c = None.

(** What [Audit.audit] returns for a decision submitted in store [st],
    when it returns. *)
Definition returned (env : Env) (st : Store) (d : Decision) : option Z :=
  match ext_faults env st (call_audit d) with
  | None => Some (ext_audit_status env st d)
  | Some _ => None
  end.

(** The form fields of a request. *)
Definition field (request : HttpRequest) (name : string) : option string :=
  POST request !! name.

(** A [workflow_id] that is absent, zero or not a number. *)
Definition malformed_workflow_id (request : HttpRequest) : Prop :=
  match field request "workflow_id" with
  | None => True
  | Some s => Py.int s = None \/ Py.int s = Some 0
  end.

(** The mutating endpoints. *)
Inductive endpoint :=
| approve
| run_now
| schedule
| terminate
| alter
| osc.

Definition view_of (env : Env) (ep : endpoint) : HttpRequest -> M HttpResponse :=
  match ep with
  | approve => passed env
  | run_now => execute env
  | schedule => timing_task env
  | terminate => cancel env
  | alter => alter_run_date env
  | osc => osc_control env
  end.

Definition is_rejection (out : outcome HttpResponse) : Prop :=
  match out with
  | Return (render_error _) => True
  | Raise _ => True
  | _ => False
  end.

(** What [int(request.POST.get("workflow_id", 0))] followed by the test
    [workflow_id == 0] answers to a malformed [workflow_id]. *)
Definition workflow_id_rejection (request : HttpRequest) : outcome HttpResponse :=
  match field request "workflow_id" with
  | Some s =>
      match Py.int s with
      | None => Raise ValueError
      | Some _ => Return (render_error (Message "workflow_id参数为空."))
      end
  | None => Return (render_error (Message "workflow_id参数为空."))
  end.

(** ** A sample installation, for the concrete runs *)

Module Sample.

Definition dict : WorkflowDict :=
  {| sqlreview := 2; audit_success := 1; audit_reject := 2; audit_abort := 3 |}.

Definition at_ (y mo d h mi s : Z) : datetime :=
  {| year := y; month := mo; day := d; hour := h; minute := mi; second := s |}.

Definition ten_o_clock : datetime := at_ 2030 1 1 10 0 0.

(** An installation where no call fails, every guard agrees, the
    gateway's aggregate status is [aggregate] of the decision, and the
    date columns take the times written to the minute. *)
Definition env (aggregate : Decision -> Z) (cfg : option string) (clock : datetime) : Env :=
  {| const := dict;
     now := clock;
     notify_phase_control := cfg;
     DateTimeField_to_python := strptime_minutes;
     ext_faults := fun _ _ => None;
     ext_can_review := fun _ _ _ _ => true;
     ext_can_execute := fun _ _ _ => true;
     ext_can_cancel := fun _ _ _ => true;
     ext_can_timingtask := fun _ _ _ => true;
     ext_on_correct_time_period := fun _ _ _ => true;
     ext_audit_status := fun _ d => aggregate d;
     ext_osc_control := fun _ _ _ _ => ([], None) |}.

(** A single-level review: the decision is the aggregate status. *)
Definition single_level (d : Decision) : Z := decided_status d.

(** A review with further levels to come: the audit stays waiting. *)
Definition more_levels (_ : Decision) : Z := 0.

Definition alice : User :=
  {| username := "alice"; display := "Alice"; is_superuser := false;
     permissions := ["sql.sql_execute"] |}.

Definition bob : User :=
  {| username := "bob"; display := "Bob"; is_superuser := false;
     permissions := ["sql.sql_review"; "sql.sql_execute"] |}.

Definition carol : User :=
  {| username := "carol"; display := "Carol"; is_superuser := false;
     permissions := [] |}.

(** Workflow 7, submitted by alice, with audit record 70. *)
Definition workflow (st : string) : SqlWorkflow :=
  {| status := st; engineer := "alice"; run_date_start := None;
     run_date_end := None; finish_time := None; instance := "mysql-1" |}.

Definition store (st : string) : Store :=
  {| workflows := {[ 7 := workflow st ]};
     audits := [ {| audit_id := 70; workflow_id := 7; workflow_type := 2;
                    current_status := 0 |} ];
     decisions := [];
     audit_log := [];
     schedules := ∅ |}.

Definition world (st : string) : World := {| db := store st; journal := [] |}.

(** The same workflow when the gateway keeps no audit record of it. *)
Definition orphan_world (st : string) : World :=
  {| db := {| workflows := {[ 7 := workflow st ]}; audits := [];
              decisions := []; audit_log := []; schedules := ∅ |};
     journal := [] |}.

Definition form (u : User) (fields : list (string * string)) : HttpRequest :=
  {| user := u; POST := list_to_map fields |}.

End Sample.


(** ** The properties of the transitions, as predicates on one call *)

(** The decision an approve call submits for the audit record [a]. *)
Definition approve_decision (env : Env) (request : HttpRequest) (a : WorkflowAudit)
  : Decision :=
  {| decided_audit := audit_id a;
     decided_status := audit_success (const env);
     decided_by := username (user request);
     decided_remark := default "" (POST request !! "audit_remark") |}.

(** Approve, past its guards. On every call the status is written exactly
    when a decision submitted to the gateway returned aggregate success,
    and otherwise the workflow table is as before. And the call does
    submit: when the gateway holds the audit record of the workflow and
    hands it out, exactly one decision, the approve decision, is
    submitted; whatever status the gateway returns for it, the transaction
    commits with the decision on the trail, and the status is written if
    that status is success and the workflow table left as it was if it is
    any other. *)
Definition status_follows_decision (env : Env) (request : HttpRequest) (w : World)
    (wid : Z) (row : SqlWorkflow) : Prop :=
  exists out w' delta,
    passed env request w = (out, w') /\ journal w' = journal w ++ delta /\
    ((exists d, audit_calls delta = [d]
                /\ decided_status d = audit_success (const env)
                /\ returned env (db w) d = Some (audit_success (const env))
                /\ workflows (db w')
                   = <[wid := set_status "workflow_review_pass" row]> (workflows (db w)))
     \/ ((forall d, In d (audit_calls delta) ->
                    returned env (db w) d <> Some (audit_success (const env)))
         /\ workflows (db w') = workflows (db w)))
    /\ (forall a,
          find (audit_of wid (sqlreview (const env))) (audits (db w)) = Some a ->
          ext_faults env (db w)
            (call_detail_by_workflow_id (PyInt wid) (sqlreview (const env))) = None ->
          let d := approve_decision env request a in
          audit_calls delta = [d]
          /\ forall result,
               returned env (db w) d = Some result ->
               committed delta = true
               /\ decisions (db w') = decisions (db w) ++ [d]
               /\ workflows (db w')
                  = if result =? audit_success (const env)
                    then <[wid := set_status "workflow_review_pass" row]> (workflows (db w))
                    else workflows (db w)).

(** Approve: the notification task is enqueued exactly when the
    transaction committed and the gate permits the phase "Pass". *)
Definition notifies_on_commit (env : Env) (request : HttpRequest) (w : World) : Prop :=
  exists out w' delta,
    passed env request w = (out, w') /\ journal w' = journal w ++ delta /\
    (committed delta && is_notified "Pass" (notify_phase_control env) = true ->
       exists d s wid,
         POST request !! "workflow_id" = Some s /\ Py.int s = Some wid
         /\ audit_calls delta = [d]
         /\ enqueued delta
            = [notify_for_audit (decided_audit d) (decided_remark d) 60
                 ("sqlreview-pass-" +:+ pretty wid)])
    /\ (committed delta && is_notified "Pass" (notify_phase_control env) = false ->
          enqueued delta = []).

(** A transactional view: the store changes only through a committed
    transaction, and then by the whole [effect]; an exception inside the
    block restores the store, with no task enqueued meanwhile, and is
    shown on the error page; a rejection with a message happens before any
    transaction begins; an exception leaves the view only before the
    transaction or after its commit. *)
Definition all_or_nothing (effect : Store -> Store -> Prop) (view : M HttpResponse)
  : Prop :=
  forall w, exists out w' delta,
    view w = (out, w') /\ journal w' = journal w ++ delta
    /\ (rolled_back delta = true ->
          db w' = db w /\ enqueued delta = []
          /\ exists e, out = Return (render_error (Caught e)))
    /\ (committed delta = false -> db w' = db w)
    /\ (committed delta = true -> effect (db w) (db w'))
    /\ (forall m, out = Return (render_error (Message m)) ->
          began delta = false /\ db w' = db w)
    /\ (forall e, out = Raise e -> began delta = false \/ committed delta = true).

(** What a committed approve leaves: the decision on the trail, and the
    status written or the workflow table untouched. *)
Definition approve_effect (st st' : Store) : Prop :=
  (exists d, decisions st' = decisions st ++ [d])
  /\ audit_log st' = audit_log st
  /\ schedules st' = schedules st
  /\ (workflows st' = workflows st
      \/ exists k row, workflows st !! k = Some row
           /\ workflows st' = <[k := set_status "workflow_review_pass" row]> (workflows st)).

(** What a committed schedule leaves: status, registry entry and log
    entry together. *)
Definition schedule_effect (st st' : Store) : Prop :=
  (exists k row, workflows st !! k = Some row
     /\ workflows st' = <[k := set_status "workflow_timingtask" row]> (workflows st))
  /\ (exists name entry, schedules st' = <[name := entry]> (schedules st))
  /\ (exists e, operation_type e = 4 /\ audit_log st' = audit_log st ++ [e])
  /\ decisions st' = decisions st.

(** What a committed cancel leaves: the status together with one log
    entry or one decision. *)
Definition cancel_effect (st st' : Store) : Prop :=
  (exists k row, workflows st !! k = Some row
     /\ workflows st' = <[k := set_status "workflow_abort" row]> (workflows st))
  /\ ((exists e, (operation_type e = 2 \/ operation_type e = 3)
                 /\ audit_log st' = audit_log st ++ [e]
                 /\ decisions st' = decisions st)
      \/ (exists d, decisions st' = decisions st ++ [d]
                    /\ audit_log st' = audit_log st)).

(** Cancel of a workflow still in review, by an actor who passed the
    guards: the submitter submits one abort decision, a reviewer one
    reject decision, and the workflow is aborted; anyone else meets
    [PermissionDenied] inside the block, which the view catches and shows
    on the error page, with the store as before. *)
Definition cancel_in_review (env : Env) (request : HttpRequest) (w : World)
    (wid : Z) (row : SqlWorkflow) (remark : string) (a : WorkflowAudit) : Prop :=
  let u := user request in
  let decision st :=
    {| decided_audit := audit_id a; decided_status := st;
       decided_by := username u; decided_remark := remark |} in
  let aborted_with d out w' delta :=
    audit_calls delta = [d]
    /\ decisions (db w') = decisions (db w) ++ [d]
    /\ workflows (db w') = <[wid := set_status "workflow_abort" row]> (workflows (db w))
    /\ out = Return (HttpResponseRedirect (PyInt wid)) in
  exists out w' delta,
    cancel env request w = (out, w') /\ journal w' = journal w ++ delta /\
    if String.eqb (username u) (engineer row)
    then aborted_with (decision (audit_abort (const env))) out w' delta
    else if has_perm u "sql.sql_review"
    then aborted_with (decision (audit_reject (const env))) out w' delta
    else out = Return (render_error (Caught PermissionDenied))
         /\ db w' = db w /\ audit_calls delta = [].

(** The log entry of a cancel past review. *)
Definition cancel_entry (request : HttpRequest) (row : SqlWorkflow) (remark : string)
    (a : WorkflowAudit) : LogEntry :=
  let u := user request in
  if String.eqb (username u) (engineer row)
  then {| log_audit_id := audit_id a; operation_type := 3;
          operation_type_desc := "取消执行";
          operation_info := "取消原因：" +:+ remark;
          operator := username u; operator_display := display u |}
  else {| log_audit_id := audit_id a; operation_type := 2;
          operation_type_desc := "审批不通过";
          operation_info := "审批备注：" +:+ remark;
          operator := username u; operator_display := display u |}.

(** Cancel of a workflow past review: the decision endpoint is never
    called, whatever else happens; and a call that passes the guards, with
    collaborators that answer, appends one log entry, removes the timing
    schedule if the workflow was scheduled, and aborts the workflow. *)
Definition cancel_past_review (env : Env) (request : HttpRequest) (w : World)
    (wid : Z) (row : SqlWorkflow) : Prop :=
  (exists out w' delta,
     cancel env request w = (out, w') /\ journal w' = journal w ++ delta
     /\ audit_calls delta = [] /\ decisions (db w') = decisions (db w))
  /\ (forall remark a,
        wid <> 0 ->
        POST request !! "cancel_remark" = Some remark ->
        ext_can_cancel env (db w) (user request) (PyInt wid) = true ->
        reliable env ->
        find (audit_of wid (sqlreview (const env))) (audits (db w)) = Some a ->
        let name := "sqlreview-timing-" +:+ pretty wid in
        let scheduled := String.eqb (status row) "workflow_timingtask" in
        exists w' delta,
          cancel env request w = (Return (HttpResponseRedirect (PyInt wid)), w')
          /\ journal w' = journal w ++ delta
          /\ log_calls delta = [cancel_entry request row remark a]
          /\ audit_log (db w') = audit_log (db w) ++ [cancel_entry request row remark a]
          /\ deleted_schedules delta = (if scheduled then [name] else [])
          /\ schedules (db w')
             = (if scheduled then delete name (schedules (db w)) else schedules (db w))
          /\ workflows (db w')
             = <[wid := set_status "workflow_abort" row]> (workflows (db w))).

(** Schedule: the call is turned down and nothing is written, without a
    transaction having begun. *)
Definition refused_unchanged (env : Env) (request : HttpRequest) (w : World) : Prop :=
  exists out w' delta,
    timing_task env request w = (out, w') /\ journal w' = journal w ++ delta
    /\ db w' = db w /\ began delta = false /\ is_rejection out.

(** Schedule, what the view does with [run_date] once the permission
    check has passed: an absent one and one that compares below the
    current time are answered with a message, the world as it was; that
    covers every time to the minute, written with zero padding, that is not
    later than the current time. A [run_date] that does not parse is never
    scheduled. *)
Definition run_date_guard (env : Env) (request : HttpRequest) (w : World) : Prop :=
  let too_early := (Return (render_error (Message "时间不能小于当前时间")), w) in
  (POST request !! "run_date" = None ->
     timing_task env request w = (Return (render_error (Message "时间不能为空")), w))
  /\ (forall rd wid,
        POST request !! "run_date" = Some rd ->
        POST request !! "workflow_id" = Some wid ->
        Py.lt rd (strftime_seconds (now env)) = true ->
        timing_task env request w = too_early)
  /\ (forall t wid,
        valid t = true -> second t = 0 -> valid (now env) = true ->
        before (now env) t = false ->
        POST request !! "run_date" = Some (strftime_minutes t) ->
        POST request !! "workflow_id" = Some wid ->
        timing_task env request w = too_early)
  /\ (forall rd,
        POST request !! "run_date" = Some rd ->
        strptime_minutes rd = None ->
        refused_unchanged env request w).

(** The request is turned down with one answer and the world as it was,
    whatever the clock, the store and the guards say. *)
Definition rejected_before_guards (ep : endpoint) (request : HttpRequest) : Prop :=
  exists out,
    is_rejection out /\ forall env w, view_of env ep request w = (out, w).

(** What schedule answers, past its permission check, to a request whose
    [workflow_id] denotes no row: the two tests of lines 235 to 240 come
    first, then the lookup of the row. *)
Definition schedule_rejection (env : Env) (request : HttpRequest)
  : outcome HttpResponse :=
  match field request "run_date", field request "workflow_id" with
  | Some run_date, Some s =>
      if Py.lt run_date (strftime_seconds (now env))
      then Return (render_error (Message "时间不能小于当前时间"))
      else match Py.int s with
           | None => Raise ValueError
           | Some _ => Raise DoesNotExist
           end
  | _, _ => Return (render_error (Message "时间不能为空"))
  end.

(** What OSC control answers to such a request: the exception of the
    lookup. *)
Definition osc_rejection (request : HttpRequest) : outcome HttpResponse :=
  match field request "workflow_id" with
  | Some s =>
      match Py.int s with
      | None => Raise ValueError
      | Some _ => Raise DoesNotExist
      end
  | None => Raise DoesNotExist
  end.

(** Where the views test [workflow_id]: cancel first thing; approve,
    alter run date and execute right after their permission check;
    schedule, after its permission check, only for absence. For the rest
    schedule, after its test of [run_date], and OSC control leave it to the
    lookup of the row, which refuses what is not a number whatever the
    store holds, and takes 0 for a number like any other: a request with
    a malformed [workflow_id] is turned down by both all the same, with
    nothing called or written, the workflow table having no row 0. *)
Definition workflow_id_checked (request : HttpRequest) : Prop :=
  let reviewer := has_perm (user request) "sql.sql_review" in
  let executor :=
    has_perm (user request) "sql.sql_execute"
    || has_perm (user request) "sql.sql_execute_for_resource_group" in
  let after_permission (allowed : bool) (out : outcome HttpResponse) :=
    if allowed then out else Raise PermissionDenied in
  (forall env w, cancel env request w = (workflow_id_rejection request, w))
  /\ (forall env w,
        passed env request w
        = (after_permission reviewer (workflow_id_rejection request), w))
  /\ (forall env w,
        alter_run_date env request w
        = (after_permission reviewer (workflow_id_rejection request), w))
  /\ (forall env w,
        execute env request w
        = (after_permission executor (workflow_id_rejection request), w))
  /\ (POST request !! "workflow_id" = None ->
      forall env w,
        timing_task env request w
        = (after_permission executor
             (Return (render_error (Message "时间不能为空"))), w))
  /\ (POST request !! "workflow_id" = None ->
      forall env w, osc_control env request w = (Raise DoesNotExist, w))
  /\ (forall s,
        POST request !! "workflow_id" = Some s -> Py.int s = None ->
        forall env w, osc_control env request w = (Raise ValueError, w))
  /\ (forall env w,
        workflows (db w) !! 0 = None ->
        timing_task env request w
        = (after_permission executor (schedule_rejection env request), w)
        /\ osc_control env request w = (osc_rejection request, w)).

(** ** The status query *)

(** What [get_workflow_status] can raise: the [MultiValueDictKeyError] of
    [request.POST["workflow_id"]], the [ValueError] of [int] and the
    [Http404] of [get_object_or_404]. *)
Inductive query_error :=
| MultiValueDictKeyError (key : string)
| Http404
| Builtin (e : exn).

(** The JSON object the query answers with; ["status"] is the number -1
    or the status of the workflow. *)
Record StatusPayload := {
  payload_status : Z + string;
  payload_msg : string;
  payload_data : string
}.

(** [get_workflow_status]: a read of the workflow table. *)
Definition get_workflow_status (request : HttpRequest) (st : Store)
  : query_error + StatusPayload :=
  match POST request !! "workflow_id" with
  | None => inl (MultiValueDictKeyError "workflow_id")
  | Some workflow_id =>
      if String.eqb workflow_id ""
      then inr {| payload_status := inl (-1);
                  payload_msg := "workflow_id参数为空.";
                  payload_data := "" |}
      else
        match Py.int workflow_id with
        | None => inl (Builtin ValueError)
        | Some workflow_id =>
            match workflows st !! workflow_id with
            | None => inl Http404
            | Some workflow_detail =>
                inr {| payload_status := inr (status workflow_detail);
                       payload_msg := "";
                       payload_data := "" |}
            end
        end
  end.

(** The answer that carries a status. *)
Definition status_answer (s : string) : query_error + StatusPayload :=
  inr {| payload_status := inr s; payload_msg := ""; payload_data := "" |}.

(** ** Further installations for the concrete runs *)

Module Outage.

(** An installation like [Sample.env] whose task queue is down:
    [async_task] raises, every other call answers. *)
Definition queue_down (c : Call) : option exn :=
  match c with
  | call_async_task _ => Some (CollaboratorError "broker unreachable")
  | _ => None
  end.

Definition env : Env :=
  {| const := Sample.dict;
     now := Sample.ten_o_clock;
     notify_phase_control := None;
     DateTimeField_to_python := strptime_minutes;
     ext_faults := fun _ c => queue_down c;
     ext_can_review := fun _ _ _ _ => true;
     ext_can_execute := fun _ _ _ => true;
     ext_can_cancel := fun _ _ _ => true;
     ext_can_timingtask := fun _ _ _ => true;
     ext_on_correct_time_period := fun _ _ _ => true;
     ext_audit_status := fun _ d => Sample.single_level d;
     ext_osc_control := fun _ _ _ _ => ([], None) |}.

(** An installation whose engine fails on every OSC command. *)
Definition engine_down (c : Call) : option exn :=
  match c with
  | call_osc_control _ _ _ => Some (CollaboratorError "engine unreachable")
  | _ => None
  end.

Definition env_engine_down : Env :=
  {| const := Sample.dict;
     now := Sample.ten_o_clock;
     notify_phase_control := None;
     DateTimeField_to_python := strptime_minutes;
     ext_faults := fun _ c => engine_down c;
     ext_can_review := fun _ _ _ _ => true;
     ext_can_execute := fun _ _ _ => true;
     ext_can_cancel := fun _ _ _ => true;
     ext_can_timingtask := fun _ _ _ => true;
     ext_on_correct_time_period := fun _ _ _ => true;
     ext_audit_status := fun _ d => Sample.single_level d;
     ext_osc_control := fun _ _ _ _ => (["row"], None) |}.

End Outage.

(** ** Further properties of the views, as predicates on one call *)

(** The execute guards, as a call that passed them sees them. *)
Definition execute_admitted (env : Env) (request : HttpRequest) (w : World)
    (wid : Z) : Prop :=
  has_perm (user request) "sql.sql_execute"
  || has_perm (user request) "sql.sql_execute_for_resource_group" = true
  /\ (exists s, POST request !! "workflow_id" = Some s /\ Py.int s = Some wid)
  /\ wid <> 0
  /\ ext_can_execute env (db w) (user request) (PyInt wid) = true
  /\ ext_on_correct_time_period env (db w) (PyInt wid) None = true.

(** Execute, manual mode: status and finish time written together, one
    log entry of type 6, nothing enqueued, no schedule touched, and the
    notifier called in line, with the finished row, when the gate permits
    the phase "Execute". *)
Definition execute_manual_effect (env : Env) (request : HttpRequest) (w : World)
    (wid : Z) (row : SqlWorkflow) (a : WorkflowAudit) : Prop :=
  let finished := set_finish_time (now env) (set_status "workflow_finish" row) in
  let entry :=
    {| log_audit_id := audit_id a; operation_type := 6;
       operation_type_desc := "手工工单"; operation_info := "确认手工执行结束";
       operator := username (user request);
       operator_display := display (user request) |} in
  exists w',
    execute env request w = (Return (HttpResponseRedirect (PyInt wid)), w')
    /\ workflows (db w') = <[wid := finished]> (workflows (db w))
    /\ audit_log (db w') = audit_log (db w) ++ [entry]
    /\ schedules (db w') = schedules (db w)
    /\ decisions (db w') = decisions (db w)
    /\ journal w' =
         journal w
         ++ [call_can_execute (user request) (PyInt wid);
             call_on_correct_time_period (PyInt wid) None;
             call_detail_by_workflow_id (PyInt wid) (sqlreview (const env));
             call_add_log entry]
         ++ (if is_notified "Execute" (notify_phase_control env)
             then [call_notify_for_execute wid finished]
             else []).

(** The task queue raises [e] on every task; every other collaborator
    answers. *)
Definition queue_refuses (env : Env) (e : exn) : Prop :=
  forall st c,
    ext_faults env st c
    = match c with call_async_task _ => Some e | _ => None end.

(** Execute, automatic mode, when the queue refuses the task: the view
    raises, and what it wrote before stays written. *)
Definition execute_auto_half_done (env : Env) (request : HttpRequest) (w : World)
    (wid : Z) (row : SqlWorkflow) (e : exn) : Prop :=
  exists w',
    execute env request w = (Raise e, w')
    /\ workflows (db w') = <[wid := set_status "workflow_queuing" row]> (workflows (db w))
    /\ schedules (db w')
       = delete ("sqlreview-timing-" +:+ pretty wid) (schedules (db w))
    /\ audit_log (db w') = audit_log (db w)
    /\ log_calls (journal w') = log_calls (journal w).

(** Execute, on every call: no transaction, no decision, no
    registration; an error page means nothing was written, enqueued or
    logged. *)
Definition execute_bounds (env : Env) (request : HttpRequest) (w : World) : Prop :=
  exists out w' delta,
    execute env request w = (out, w') /\ journal w' = journal w ++ delta
    /\ began delta = false
    /\ audit_calls delta = []
    /\ decisions (db w') = decisions (db w)
    /\ audits (db w') = audits (db w)
    /\ (forall name entry,
          schedules (db w') !! name = Some entry ->
          schedules (db w) !! name = Some entry)
    /\ (forall m, out = Return (render_error m) ->
          db w' = db w /\ enqueued delta = [] /\ log_calls delta = []).

(** What a redirect of execute tells: the audit record was found, and
    by the mode the row was queued, with the schedule named after the
    number removed and a log entry of type 5, or finished, with a log entry
    of type 6, or, for any other mode, nothing was written. *)
Definition executed_as (env : Env) (request : HttpRequest) (w w' : World)
    (wid : Z) : Prop :=
  let mode := POST request !! "mode" in
  let u := user request in
  let entry a type_ desc info :=
    {| log_audit_id := audit_id a; operation_type := type_;
       operation_type_desc := desc; operation_info := info;
       operator := username u; operator_display := display u |} in
  exists a,
    find (audit_of wid (sqlreview (const env))) (audits (db w)) = Some a
    /\ audits (db w') = audits (db w)
    /\ decisions (db w') = decisions (db w)
    /\ if is_str mode "auto" then
         exists row,
           workflows (db w) !! wid = Some row
           /\ workflows (db w')
              = <[wid := set_status "workflow_queuing" row]> (workflows (db w))
           /\ schedules (db w')
              = delete ("sqlreview-timing-" +:+ pretty wid) (schedules (db w))
           /\ audit_log (db w')
              = audit_log (db w) ++ [entry a 5 "执行工单" "工单执行排队中"]
       else if is_str mode "manual" then
         exists row,
           workflows (db w) !! wid = Some row
           /\ workflows (db w')
              = <[wid := set_finish_time (now env) (set_status "workflow_finish" row)]>
                  (workflows (db w))
           /\ schedules (db w') = schedules (db w)
           /\ audit_log (db w')
              = audit_log (db w) ++ [entry a 6 "手工工单" "确认手工执行结束"]
       else db w' = db w.

(** What a date column makes of a form field: an absent or empty field
    clears the bound, a text is the time it denotes, and a text that
    denotes none is refused. *)
Inductive bound :=
| cleared
| set_to (t : datetime)
| refused.

Definition bound_of (env : Env) (x : option string) : bound :=
  match or_None x with
  | None => cleared
  | Some text =>
      match DateTimeField_to_python env text with
      | Some t => set_to t
      | None => refused
      end
  end.

Definition column (b : bound) : option datetime :=
  match b with
  | set_to t => Some t
  | _ => None
  end.

(** Alter run date on a call past its guards: when the date columns take
    both fields and the row exists, the two bounds are overwritten, an
    empty or absent field clearing the bound, and nothing else; a field
    the column refuses, or a missing row, leaves the store as it was, the
    error page showing the exception of the conversion or of the failed
    update. *)
Definition run_dates_overwritten (env : Env) (request : HttpRequest) (w : World)
    (wid : Z) : Prop :=
  let a := bound_of env (POST request !! "run_date_start") in
  let b := bound_of env (POST request !! "run_date_end") in
  exists out w',
    alter_run_date env request w = (out, w')
    /\ journal w' = journal w ++ [call_can_review (user request) (PyInt wid) 2]
    /\ match a, b, workflows (db w) !! wid with
       | refused, _, _ | _, refused, _ =>
           out = Return (render_error (Caught ValidationError)) /\ db w' = db w
       | _, _, None =>
           out = Return (render_error (Caught DatabaseError)) /\ db w' = db w
       | _, _, Some row =>
           out = Return (HttpResponseRedirect (PyInt wid))
           /\ db w' = put_workflow wid (set_run_dates (column a) (column b) row) (db w)
       end.

(** The columns of a row that alter run date leaves alone. *)
Definition lifecycle (r : SqlWorkflow) : string * string * option datetime * string :=
  (status r, engineer r, finish_time r, instance r).

(** Alter run date, on every call: the lifecycle columns of every row,
    the audit trail and the registry are as before; no transaction, no
    log entry, no task. *)
Definition only_run_dates_change (env : Env) (request : HttpRequest) (w : World)
  : Prop :=
  exists out w' delta,
    alter_run_date env request w = (out, w') /\ journal w' = journal w ++ delta
    /\ (forall k, lifecycle <$> workflows (db w') !! k
                  = lifecycle <$> workflows (db w) !! k)
    /\ audits (db w') = audits (db w)
    /\ decisions (db w') = decisions (db w)
    /\ audit_log (db w') = audit_log (db w)
    /\ schedules (db w') = schedules (db w)
    /\ began delta = false /\ enqueued delta = [] /\ log_calls delta = []
    /\ audit_calls delta = [].

(** What a redirect of the schedule view tells: the run date parsed, the
    row found under the number the form text denotes, and status,
    registry entry (named after the form text) and log entry written. *)
Definition scheduled_as (env : Env) (request : HttpRequest) (w w' : World)
    (s : string) : Prop :=
  exists rd t k row a,
    POST request !! "workflow_id" = Some s
    /\ POST request !! "run_date" = Some rd
    /\ Py.lt rd (strftime_seconds (now env)) = false
    /\ strptime_minutes rd = Some t
    /\ Py.int s = Some k
    /\ workflows (db w) !! k = Some row
    /\ find (audit_of k (sqlreview (const env))) (audits (db w)) = Some a
    /\ workflows (db w') = <[k := set_status "workflow_timingtask" row]> (workflows (db w))
    /\ schedules (db w')
       = <["sqlreview-timing-" +:+ s :=
             {| next_run := t; scheduled_workflow := PyStr s |}]> (schedules (db w))
    /\ audit_log (db w')
       = audit_log (db w)
         ++ [{| log_audit_id := audit_id a; operation_type := 4;
                operation_type_desc := "定时执行";
                operation_info := "定时执行时间：" +:+ strftime_seconds t;
                operator := username (user request);
                operator_display := display (user request) |}]
    /\ decisions (db w') = decisions (db w).

(** What a redirect of the cancel view tells: the row found, the status
    written, and of the registry only the entry named after the number
    removed, when the workflow was scheduled. *)
Definition cancelled_as (request : HttpRequest) (w w' : World) (k : Z) : Prop :=
  exists s row remark,
    POST request !! "workflow_id" = Some s
    /\ Py.int s = Some k
    /\ k <> 0
    /\ workflows (db w) !! k = Some row
    /\ POST request !! "cancel_remark" = Some remark
    /\ workflows (db w') = <[k := set_status "workflow_abort" row]> (workflows (db w))
    /\ schedules (db w')
       = (if String.eqb (status row) "workflow_timingtask"
          then delete ("sqlreview-timing-" +:+ pretty k) (schedules (db w))
          else schedules (db w)).

(** Cancel, the notification: on every call at most one task is enqueued,
    and only after the commit, with the gate permitting "Cancel" and the
    audit record, as read back after the commit, aborted or rejected; with
    collaborators that answer, these conditions suffice. The record is as
    before the call when no decision was submitted. *)
Definition cancel_notification (env : Env) (request : HttpRequest) (w : World) : Prop :=
  let settled a :=
    (current_status a =? audit_abort (const env))
    || (current_status a =? audit_reject (const env)) in
  exists out w' delta,
    cancel env request w = (out, w') /\ journal w' = journal w ++ delta
    /\ (audit_calls delta = [] -> audits (db w') = audits (db w))
    /\ (enqueued delta = []
        \/ exists s k remark a,
             POST request !! "workflow_id" = Some s /\ Py.int s = Some k
             /\ POST request !! "cancel_remark" = Some remark
             /\ committed delta = true
             /\ is_notified "Cancel" (notify_phase_control env) = true
             /\ find (audit_of k (sqlreview (const env))) (audits (db w')) = Some a
             /\ settled a = true
             /\ enqueued delta
                = [notify_for_audit (audit_id a) remark 60
                     ("sqlreview-cancel-" +:+ pretty k)])
    /\ (reliable env ->
        committed delta = true ->
        is_notified "Cancel" (notify_phase_control env) = true ->
        forall s k a,
          POST request !! "workflow_id" = Some s -> Py.int s = Some k ->
          find (audit_of k (sqlreview (const env))) (audits (db w')) = Some a ->
          settled a = true ->
          exists remark,
            enqueued delta
            = [notify_for_audit (audit_id a) remark 60
                 ("sqlreview-cancel-" +:+ pretty k)]).

(** OSC control of a workflow that exists: the engine is asked once, the
    view answers whatever the engine does, and the store is as before. *)
Definition osc_answer (env : Env) (request : HttpRequest) (w : World)
    (row : SqlWorkflow) : Prop :=
  let command := POST request !! "command" in
  let sqlsha1 := POST request !! "sqlsha1" in
  let asked := call_osc_control (instance row) command sqlsha1 in
  exists resp w',
    osc_control env request w = (Return resp, w')
    /\ db w' = db w
    /\ journal w' = journal w ++ [asked]
    /\ match ext_faults env (db w) asked with
       | Some e => resp = osc_response 0 [] (Some (Caught e))
       | None =>
           let result := ext_osc_control env (db w) (instance row) command sqlsha1 in
           resp = osc_response (length (fst result)) (fst result)
                    (Message <$> snd result)
       end.

(** A transition that answered with a redirect to workflow [k], and the
    status it is written to give. *)
Definition moved_to (env : Env) (request : HttpRequest) (w w' : World) (k : Z)
    (st : string) : Prop :=
  (cancel env request w = (Return (HttpResponseRedirect (PyInt k)), w')
   /\ st = "workflow_abort")
  \/ (exists s,
        timing_task env request w = (Return (HttpResponseRedirect (PyStr s)), w')
        /\ Py.int s = Some k /\ st = "workflow_timingtask")
  \/ (execute env request w = (Return (HttpResponseRedirect (PyInt k)), w')
      /\ POST request !! "mode" = Some "auto" /\ st = "workflow_queuing")
  \/ (execute env request w = (Return (HttpResponseRedirect (PyInt k)), w')
      /\ POST request !! "mode" = Some "manual" /\ st = "workflow_finish").

(** Schedule, then cancel: the registry entry written by the schedule
    call, named after the form text [s], against the name the cancel call
    removes, made from the number [k]. *)
Definition entry_after_cancel (w1 w2 : World) (s : string) (k : Z) : Prop :=
  let name := "sqlreview-timing-" +:+ s in
  exists entry,
    schedules (db w1) !! name = Some entry
    /\ scheduled_workflow entry = PyStr s
    /\ (status <$> workflows (db w2) !! k) = Some "workflow_abort"
    /\ schedules (db w2) !! name
       = (if String.eqb s (pretty k) then None else Some entry).

(** What the lookup of [osc_control] raises when it finds no workflow:
    the form text is not a number, or no row has the number. *)
Definition osc_lookup_error (request : HttpRequest) : exn :=
  match POST request !! "workflow_id" with
  | None => DoesNotExist
  | Some s =>
      match Py.int s with
      | None => ValueError
      | Some _ => DoesNotExist
      end
  end.

(** The answer of the status query to an empty [workflow_id]. *)
Definition empty_id_answer : query_error + StatusPayload :=
  inr {| payload_status := inl (-1); payload_msg := "workflow_id参数为空.";
         payload_data := "" |}.

(** The status query, outcome by outcome. *)
Definition status_query_cases (request : HttpRequest) (st : Store) : Prop :=
  let asked := POST request !! "workflow_id" in
  let answer := get_workflow_status request st in
  (forall x,
     answer = status_answer x
     <-> exists s k row,
           asked = Some s /\ Py.int s = Some k /\ workflows st !! k = Some row
           /\ status row = x)
  /\ (answer = empty_id_answer <-> asked = Some "")
  /\ (answer = inl (Builtin ValueError)
      <-> exists s, asked = Some s /\ s <> "" /\ Py.int s = None)
  /\ (answer = inl Http404
      <-> exists s k, asked = Some s /\ Py.int s = Some k /\ workflows st !! k = None)
  /\ (answer = inl (MultiValueDictKeyError "workflow_id") <-> asked = None).

(** The permission checks come first: a request without the permission
    of a view is answered [PermissionDenied] with nothing read, called or
    written. *)
Definition denied_first (request : HttpRequest) : Prop :=
  let u := user request in
  (has_perm u "sql.sql_review" = false ->
   forall env w,
     passed env request w = (Raise PermissionDenied, w)
     /\ alter_run_date env request w = (Raise PermissionDenied, w))
  /\ (has_perm u "sql.sql_execute" = false ->
      has_perm u "sql.sql_execute_for_resource_group" = false ->
      forall env w,
        execute env request w = (Raise PermissionDenied, w)
        /\ timing_task env request w = (Raise PermissionDenied, w)).

(** Approve of a workflow whose row is missing: the decision is
    submitted, and rolled back with the failed status update. *)
Definition approve_rolled_back (env : Env) (request : HttpRequest) (w : World)
    (d : Decision) : Prop :=
  exists w' delta,
    passed env request w = (Return (render_error (Caught DatabaseError)), w')
    /\ journal w' = journal w ++ delta
    /\ db w' = db w
    /\ audit_calls delta = [d]
    /\ rolled_back delta = true
    /\ enqueued delta = [].

(** The decisions a view submits: at most one a call, in the name of the
    requesting user, of the kind [allowed]; and the decision trail grows
    by exactly the decisions of a committed transaction. *)
Definition decisions_as_submitted (request : HttpRequest) (allowed : Decision -> Prop)
    (view : M HttpResponse) (w : World) : Prop :=
  exists out w' delta,
    view w = (out, w') /\ journal w' = journal w ++ delta
    /\ (length (audit_calls delta) <= 1)%nat
    /\ (forall d, In d (audit_calls delta) ->
          decided_by d = username (user request) /\ allowed d)
    /\ decisions (db w')
       = decisions (db w) ++ (if committed delta then audit_calls delta else []).

Definition approval (env : Env) (request : HttpRequest) (d : Decision) : Prop :=
  decided_status d = audit_success (const env)
  /\ decided_remark d = default "" (POST request !! "audit_remark").

Definition refusal (env : Env) (request : HttpRequest) (d : Decision) : Prop :=
  (decided_status d = audit_abort (const env)
   \/ decided_status d = audit_reject (const env)
      /\ has_perm (user request) "sql.sql_review" = true)
  /\ POST request !! "cancel_remark" = Some (decided_remark d).

(** Schedule, on every call: no task, no removal from the registry, no
    decision; every registry entry but the one named after the form text
    is as before. *)
Definition schedule_bounds (env : Env) (request : HttpRequest) (w : World) : Prop :=
  exists out w' delta,
    timing_task env request w = (out, w') /\ journal w' = journal w ++ delta
    /\ enqueued delta = []
    /\ deleted_schedules delta = []
    /\ audit_calls delta = []
    /\ audits (db w') = audits (db w)
    /\ forall name,
         POST request !! "workflow_id" <> Some name ->
         schedules (db w') !! ("sqlreview-timing-" +:+ name)
         = schedules (db w) !! ("sqlreview-timing-" +:+ name).

(** Execute for a number without a row: the guards are asked, the audit
    record is read, and the update of the status raises, outside any try
    block; nothing is written. *)
Definition execute_without_row (env : Env) (request : HttpRequest) (w : World)
    (wid : Z) : Prop :=
  exists w',
    execute env request w = (Raise DatabaseError, w')
    /\ db w' = db w
    /\ journal w'
       = journal w
         ++ [call_can_execute (user request) (PyInt wid);
             call_on_correct_time_period (PyInt wid) None;
             call_detail_by_workflow_id (PyInt wid) (sqlreview (const env))].
(** * Properties *)

(** ** The library functions on examples *)

Example int_plain : Py.int "42" = Some 42.
Proof. reflexivity. Qed.

Example int_spaces_sign_underscore : Py.int " -1_000 " = Some (-1000).
Proof. reflexivity. Qed.

Example int_rejects_letters : Py.int "abc" = None.
Proof. reflexivity. Qed.

Example int_rejects_empty : Py.int "" = None.
Proof. reflexivity. Qed.

(** Decimal digits and white space of any script count, the separators
    U+001C to U+001F do not. *)
Example int_fullwidth : Py.int "７" = Some 7.
Proof. reflexivity. Qed.

Example int_no_break_space : Py.int (String (ascii_of_nat 194) (String (ascii_of_nat 160) "7")) = Some 7.
Proof. reflexivity. Qed.

Example int_file_separator : Py.int (String (ascii_of_nat 28) "7") = None.
Proof. reflexivity. Qed.

Example int_too_many_digits :
  Py.int (string_of_list_ascii (repeat "1"%char 4300)) <> None
  /\ Py.int (string_of_list_ascii (repeat "1"%char 4301)) = None.
Proof. split; vm_compute; congruence. Qed.

Example split_two : Py.split "," "Pass,Execute" = ["Pass"; "Execute"].
Proof. reflexivity. Qed.

Example split_trailing : Py.split "," "Pass," = ["Pass"; ""].
Proof. reflexivity. Qed.

Example strptime_padded :
  strptime_minutes "2030-01-05 09:30" = Some (Sample.at_ 2030 1 5 9 30 0).
Proof. reflexivity. Qed.

Example strptime_unpadded :
  strptime_minutes "2030-1-5 9:30" = Some (Sample.at_ 2030 1 5 9 30 0).
Proof. reflexivity. Qed.

Example strptime_with_seconds : strptime_minutes "2030-01-05 09:30:00" = None.
Proof. reflexivity. Qed.

Example strptime_bad_day : strptime_minutes "2030-02-30 09:30" = None.
Proof. reflexivity. Qed.

(** \d takes the digits of any script, a range like [0-9] the ASCII ones:
    the year may be written in fullwidth digits, the month may not. *)
Example strptime_fullwidth_year :
  strptime_minutes "２０３０-01-02 08:00" = Some (Sample.at_ 2030 1 2 8 0 0).
Proof. reflexivity. Qed.

Example strptime_fullwidth_month : strptime_minutes "2030-０１-02 08:00" = None.
Proof. reflexivity. Qed.

(** The match ends with the minutes; what it leaves over is refused. *)
Example strptime_minute_60 : strptime_minutes "2030-01-02 08:60" = None.
Proof. reflexivity. Qed.

Example strftime_example :
  strftime_seconds (Sample.at_ 2030 1 5 9 30 7) = "2030-01-05 09:30:07".
Proof. reflexivity. Qed.

(** ** [split] and [join] *)

Lemma append_nil_l s : "" +:+ s = s.
Proof. reflexivity. Qed.

Lemma append_cons c s t : String c s +:+ t = String c (s +:+ t).
Proof. reflexivity. Qed.

Section SplitJoin.

Variable sep : ascii.

Lemma split_not_nil s : Py.split sep s <> [].
Proof.
  destruct s as [|c r]; cbn; [discriminate|].
  destruct (Ascii.eqb c sep); [discriminate|].
  destruct (Py.split sep r); discriminate.
Qed.

Lemma split_cons_other c r :
  Ascii.eqb c sep = false ->
  exists h t, Py.split sep r = h :: t /\ Py.split sep (String c r) = String c h :: t.
Proof.
  intros Hc. cbn. rewrite Hc.
  destruct (Py.split sep r) as [|h t] eqn:E.
  - now apply split_not_nil in E.
  - eauto.
Qed.

(** No element of a split contains the separator. *)
Lemma split_sep_free s : Forall (fun x => Py.has_char sep x = false) (Py.split sep s).
Proof.
  induction s as [|c r IH]; cbn.
  - repeat constructor.
  - destruct (Ascii.eqb c sep) eqn:Hc.
    + constructor; [reflexivity | exact IH].
    + destruct (Py.split sep r) as [|h t]; [repeat constructor; cbn; now rewrite Hc|].
      inversion IH; subst. constructor; [|assumption].
      cbn. now rewrite Hc.
Qed.

(** Joining what was split gives the string back. *)
Lemma join_split s : Py.join sep (Py.split sep s) = s.
Proof.
  induction s as [|c r IH]; [reflexivity|].
  cbn [Py.split]. destruct (Ascii.eqb c sep) eqn:Hc.
  - apply Ascii.eqb_eq in Hc. subst c.
    cbn. destruct (Py.split sep r) eqn:E; [now apply split_not_nil in E|].
    cbn in IH |- *. now rewrite IH.
  - destruct (Py.split sep r) as [|h t] eqn:E; [now apply split_not_nil in E|].
    destruct t; cbn in IH |- *; now rewrite <- IH.
Qed.

Lemma split_append_sep x r :
  Py.has_char sep x = false ->
  Py.split sep (x +:+ String sep r) = x :: Py.split sep r.
Proof.
  induction x as [|c x IH]; cbn.
  - intros _. rewrite append_nil_l. cbn. now rewrite Ascii.eqb_refl.
  - destruct (Ascii.eqb c sep) eqn:Hc; [discriminate|].
    intros Hx. rewrite append_cons. cbn. now rewrite Hc, IH.
Qed.

Lemma split_sep_free_one x :
  Py.has_char sep x = false -> Py.split sep x = [x].
Proof.
  induction x as [|c x IH]; cbn; [reflexivity|].
  destruct (Ascii.eqb c sep) eqn:Hc; [discriminate|].
  intros Hx. now rewrite IH.
Qed.

(** Splitting what was joined gives the elements back. *)
Lemma split_join l :
  l <> [] -> Forall (fun x => Py.has_char sep x = false) l ->
  Py.split sep (Py.join sep l) = l.
Proof.
  induction l as [|x l IH]; [congruence|].
  intros _ Hall. inversion Hall as [|? ? Hx Hl]; subst.
  destruct l as [|y l].
  - cbn. now apply split_sep_free_one.
  - change (Py.join sep (x :: y :: l)) with (x +:+ String sep (Py.join sep (y :: l))).
    rewrite split_append_sep by assumption.
    now rewrite IH.
Qed.

End SplitJoin.

Lemma contains_In x l : Py.contains x l = true <-> In x l.
Proof.
  unfold Py.contains. rewrite existsb_exists. split.
  - intros [y [Hy Heq]]. apply String.eqb_eq in Heq. now subst.
  - intros H. exists x. split; [assumption | apply String.eqb_refl].
Qed.

(** ** The notification gate *)

(** C9. The notification gate answers true exactly when the configured
    allow-list is unset or empty, or the phase is one of its
    comma-separated elements (the allow-list is the elements, none of which
    contains a comma, joined by commas). With the allow-list
    "Pass,Execute" the phase "Cancel" is refused; with an unset or empty
    allow-list every phase is permitted. *)
Theorem C9_notification_gate (phase : string) (cfg : option string) :
  (is_notified phase cfg = true <->
     cfg = None \/ cfg = Some "" \/
     exists l, cfg = Some (Py.join "," l)
               /\ Forall (fun x => Py.has_char "," x = false) l
               /\ In phase l)
  /\ is_notified "Cancel" (Some "Pass,Execute") = false
  /\ is_notified phase None = true
  /\ is_notified phase (Some "") = true.
Proof.
  split; [|repeat split].
  split.
  - intros H. destruct cfg as [s|]; [|now left].
    destruct s as [|c r]; [now right; left|].
    right; right. exists (Py.split "," (String c r)).
    rewrite join_split. split; [reflexivity|].
    split; [apply split_sep_free|].
    apply contains_In. exact H.
  - intros [-> | [-> | [l [-> [Hfree Hin]]]]]; [reflexivity | reflexivity |].
    unfold is_notified.
    destruct (Py.join "," l) as [|c r] eqn:E; [reflexivity|].
    rewrite <- E, split_join; [now apply contains_In | | assumption].
    intros ->. destruct Hin.
Qed.

(** ** Running the views *)

Arguments strftime_seconds : simpl never.
Arguments strftime_minutes : simpl never.
Arguments strptime_minutes : simpl never.
Arguments is_notified : simpl never.
Arguments has_perm : simpl never.
Arguments Py.int : simpl never.
Arguments Py.lt : simpl never.
Arguments pretty : simpl never.

Ltac unfold_views :=
  unfold passed, passed_view, execute, timing_task, cancel,
    alter_run_date, alter_run_date_view, permission_required, osc_control,
    int_workflow_id, get_db_prep_save,
    Audit_can_review, can_execute, can_cancel, can_timingtask,
    on_correct_time_period, objects_get, save, save_update_fields,
    Audit_detail_by_workflow_id, Audit_audit, Audit_add_log, add_sql_schedule,
    del_schedule, async_task, notify_for_execute, engine_osc_control,
    try_except_else, atomic, invoke, bind, ret, raise, get_db, with_db, to_pk,
    record in *.

Lemma find_decide_audit k t d r l :
  find (audit_of k t) (map (decide_audit d r) l)
  = decide_audit d r <$> find (audit_of k t) l.
Proof.
  induction l as [|a l IH]; [reflexivity|].
  cbn [map find]. rewrite IH.
  replace (audit_of k t (decide_audit d r a)) with (audit_of k t a)
    by (unfold audit_of, decide_audit; now destruct (audit_id a =? decided_audit d)).
  now destruct (audit_of k t a).
Qed.

Ltac reduce :=
  cbn beta iota zeta delta
    [db journal workflows audits decisions audit_log schedules put_workflow
     put_decision put_log put_schedules fst snd negb andb orb default from_option
     fmap option_fmap option_map].

(** A collaborator that raised, in an installation where none does. *)
Ltac no_fault :=
  match goal with
  | Hr : reliable _, H : ext_faults _ _ _ = Some _ |- _ =>
      rewrite Hr in H; discriminate H
  end.

(** Case analysis on the innermost term the view inspects next; what the
    context already knows about it closes the other cases. *)
Ltac split_on_inspected :=
  match goal with
  | |- context [match ?x with _ => _ end] =>
      lazymatch x with
      | context [match _ with _ => _ end] => fail
      | negb ?y => let H := fresh "Case" in destruct y eqn:H; simplify_eq
      | _ <$> ?y => let H := fresh "Case" in destruct y eqn:H; simplify_eq
      | _ => let H := fresh "Case" in destruct x eqn:H; simplify_eq; try no_fault
      end
  end.

Ltac run_cases :=
  unfold_views;
  repeat first [rewrite find_decide_audit | progress reduce | split_on_inspected].

(** Name the outcome, the final world and the journal written. *)
Ltac frame :=
  do 3 eexists; split; [reflexivity|];
  cbn [journal db]; rewrite <- ?app_assoc;
  split; [first [reflexivity | symmetry; apply app_nil_r]|].

(** Close what is left of a case by computation. *)
Ltac settle :=
  cbn; repeat split; intros; simplify_eq; try discriminate; try reflexivity;
  try (left; reflexivity); try (right; reflexivity); eauto.

(** ** Execute, automatic mode *)

(** C6. An execute call in auto mode that passes its guards (and whose
    collaborators answer) sets the status to workflow_queuing, deletes the
    timing schedule named for the workflow id whether or not one existed,
    then makes exactly one enqueue call, and appends exactly one audit log
    entry, of operation type 5. *)
Theorem C6_execute_auto (env : Env) (request : HttpRequest) (w : World)
    (s : string) (wid : Z) (row : SqlWorkflow) (a : WorkflowAudit) :
  has_perm (user request) "sql.sql_execute"
  || has_perm (user request) "sql.sql_execute_for_resource_group" = true ->
  POST request !! "workflow_id" = Some s ->
  Py.int s = Some wid ->
  wid <> 0 ->
  ext_can_execute env (db w) (user request) (PyInt wid) = true ->
  ext_on_correct_time_period env (db w) (PyInt wid) None = true ->
  POST request !! "mode" = Some "auto" ->
  reliable env ->
  workflows (db w) !! wid = Some row ->
  find (audit_of wid (sqlreview (const env))) (audits (db w)) = Some a ->
  let name := "sqlreview-timing-" +:+ pretty wid in
  let task :=
    execute_sql wid (user request) "sql.utils.execute_sql.execute_callback" (-1)
      ("sqlreview-execute-" +:+ pretty wid) in
  let entry :=
    {| log_audit_id := audit_id a; operation_type := 5;
       operation_type_desc := "执行工单"; operation_info := "工单执行排队中";
       operator := username (user request);
       operator_display := display (user request) |} in
  exists w',
    execute env request w = (Return (HttpResponseRedirect (PyInt wid)), w')
    /\ workflows (db w') = <[wid := set_status "workflow_queuing" row]> (workflows (db w))
    /\ schedules (db w') = delete name (schedules (db w))
    /\ schedules (db w') !! name = None
    /\ audit_log (db w') = audit_log (db w) ++ [entry]
    /\ journal w' =
         journal w
         ++ [call_can_execute (user request) (PyInt wid);
             call_on_correct_time_period (PyInt wid) None;
             call_detail_by_workflow_id (PyInt wid) (sqlreview (const env));
             call_del_schedule name;
             call_async_task task;
             call_add_log entry].
Proof.
  intros Hperm Hs Hint Hnz Hexec Hwin Hmode Hrel Hrow Ha name task entry.
  apply Z.eqb_neq in Hnz.
  assert (Hauto : is_str (POST request !! "mode") "auto" = true)
    by (rewrite Hmode; reflexivity).
  eexists. split; [run_cases; reflexivity|].
  cbn [db journal workflows schedules audit_log].
  repeat split.
  - apply lookup_delete_eq.
  - rewrite <- !app_assoc. reflexivity.
Qed.

Lemma C6_execute_auto_witness :
  exists w',
    execute (Sample.env Sample.single_level None Sample.ten_o_clock)
      (Sample.form Sample.alice [("workflow_id", "7"); ("mode", "auto")])
      (Sample.world "workflow_review_pass")
    = (Return (HttpResponseRedirect (PyInt 7)), w')
    /\ status <$> workflows (db w') !! 7 = Some "workflow_queuing"
    /\ length (enqueued (journal w')) = 1%nat
    /\ operation_type <$> log_calls (journal w') = [5].
Proof.
  destruct (C6_execute_auto
              (Sample.env Sample.single_level None Sample.ten_o_clock)
              (Sample.form Sample.alice [("workflow_id", "7"); ("mode", "auto")])
              (Sample.world "workflow_review_pass")
              "7" 7 (Sample.workflow "workflow_review_pass")
              {| audit_id := 70; workflow_id := 7; workflow_type := 2;
                 current_status := 0 |})
    as [w' [Hrun [Hwf [_ [_ [_ Hj]]]]]];
    [reflexivity | reflexivity | reflexivity | lia | reflexivity
    | reflexivity | reflexivity | intros st c; reflexivity | reflexivity
    | reflexivity |].
  exists w'. split; [exact Hrun|].
  rewrite Hwf, Hj. repeat split.
Defined.

(** ** Approve *)

(** The two ways of an approve call: the status written after a success,
    or no success and no write. *)
Ltac passed_status_case :=
  unfold returned; cbn;
  first
    [ left; eexists; split; [reflexivity|]; split; [reflexivity|];
      split; [|reflexivity];
      match goal with
      | H : ext_faults _ _ (call_audit _) = None |- _ => rewrite H
      end;
      f_equal; now apply Z.eqb_eq
    | right; split; [|reflexivity];
      let d := fresh "d" in
      let Hd := fresh "Hd" in
      intros d Hd; repeat (destruct Hd as [<- | Hd]); try destruct Hd;
      repeat match goal with
             | H : ext_faults _ _ _ = _ |- _ => rewrite H; clear H
             end;
      try discriminate;
      let Heq := fresh "Heq" in
      intros Heq; injection Heq as Heq; rewrite Heq, Z.eqb_refl in *; congruence ].

(** C1. For an approve call that passes the workflow_id and
    review-authority guards, on an existing workflow, the status is set to
    workflow_review_pass if and only if the gateway's decision returns
    aggregate status audit_success. On every such call: either exactly one
    approve decision was submitted, the gateway returned audit_success and
    the status was set; or no submitted decision returned audit_success
    and the workflow table is unchanged. And the call does decide: when the
    gateway holds the audit record and hands it out, exactly one decision
    is submitted, the approve decision in the user's name with the form's
    remark; for every status the gateway returns for it the transaction
    commits with the decision on the trail, the status written when that
    status is audit_success, the workflow table unchanged when it is any
    other. *)
Theorem C1_passed_status (env : Env) (request : HttpRequest) (w : World)
    (s : string) (wid : Z) (row : SqlWorkflow) :
  has_perm (user request) "sql.sql_review" = true ->
  POST request !! "workflow_id" = Some s ->
  Py.int s = Some wid ->
  wid <> 0 ->
  ext_faults env (db w) (call_can_review (user request) (PyInt wid) 2) = None ->
  ext_can_review env (db w) (user request) (PyInt wid) 2 = true ->
  workflows (db w) !! wid = Some row ->
  status_follows_decision env request w wid row.
Proof.
  intros Hperm Hs Hint Hnz Hok Hrev Hrow. unfold status_follows_decision.
  apply Z.eqb_neq in Hnz.
  run_cases.
  all: frame.
  all: split; [passed_status_case|].
  all: intros a Ha Hdetail; cbv zeta; unfold approve_decision, returned.
  all: simplify_eq.
  all: cbn [audit_calls omap app].
  all: split; [reflexivity|]; intros result Hres.
  all: match goal with
       | H : ext_faults _ _ (call_audit _) = _ |- _ => rewrite H in Hres
       end.
  all: try discriminate Hres.
  all: injection Hres as <-.
  all: cbn.
  all: match goal with
       | H : (_ =? _) = _ |- _ => rewrite H
       end.
  all: repeat split.
Qed.

Lemma C1_passed_status_witness :
  status_follows_decision
    (Sample.env Sample.single_level None Sample.ten_o_clock)
    (Sample.form Sample.bob [("workflow_id", "7"); ("audit_remark", "ok")])
    (Sample.world "workflow_manreviewing")
    7 (Sample.workflow "workflow_manreviewing").
Proof.
  apply (C1_passed_status _ _ _ "7"); [reflexivity | reflexivity | reflexivity | lia
                                      | reflexivity | reflexivity | reflexivity].
Defined.

(** A single-level review takes the first alternative: the status is set. *)
Example passed_sets_status :
  exists out w',
    passed (Sample.env Sample.single_level None Sample.ten_o_clock)
      (Sample.form Sample.bob [("workflow_id", "7"); ("audit_remark", "ok")])
      (Sample.world "workflow_manreviewing") = (out, w')
    /\ status <$> workflows (db w') !! 7 = Some "workflow_review_pass".
Proof. do 2 eexists. split; [vm_compute; reflexivity | reflexivity]. Qed.

(** With further review levels to come the gateway answers another
    status: the decision is on the trail, the status is as before. *)
Example passed_keeps_status :
  exists out w',
    passed (Sample.env Sample.more_levels None Sample.ten_o_clock)
      (Sample.form Sample.bob [("workflow_id", "7"); ("audit_remark", "ok")])
      (Sample.world "workflow_manreviewing") = (out, w')
    /\ status <$> workflows (db w') !! 7 = Some "workflow_manreviewing"
    /\ length (decisions (db w')) = 1%nat.
Proof. do 2 eexists. split; [vm_compute; reflexivity | split; reflexivity]. Qed.

(** C10. Whenever the transaction of an approve call commits, the gate
    for the phase "Pass" decides alone whether the notification task is
    enqueued: it is enqueued, once, when the gate permits, and never
    otherwise or without a commit. The statement does not look at the
    aggregate status, so it covers the calls whose decision did not reach
    success and left the status as it was ([passed_notifies_without_transition]
    runs one). *)
Theorem C10_passed_notification (env : Env) (request : HttpRequest) (w : World) :
  notifies_on_commit env request w.
Proof.
  unfold notifies_on_commit.
  run_cases.
  all: frame.
  all: cbn; rewrite ?andb_false_r; split; intros Hgate; try discriminate Hgate;
    try reflexivity.
  all: do 3 eexists; repeat split; eassumption.
Qed.

Example passed_notifies_without_transition :
  exists out w',
    passed (Sample.env Sample.more_levels (Some "Pass,Execute") Sample.ten_o_clock)
      (Sample.form Sample.bob [("workflow_id", "7"); ("audit_remark", "ok")])
      (Sample.world "workflow_manreviewing") = (out, w')
    /\ workflows (db w') = workflows (Sample.store "workflow_manreviewing")
    /\ committed (journal w') = true
    /\ enqueued (journal w') = [notify_for_audit 70 "ok" 60 "sqlreview-pass-7"].
Proof. do 2 eexists. split; [vm_compute; reflexivity | repeat split]. Qed.

(** ** Transactions *)

Lemma passed_all_or_nothing env request :
  all_or_nothing approve_effect (passed env request).
Proof.
  intros w. run_cases.
  all: frame.
  all: settle.
Qed.

Lemma timing_task_all_or_nothing env request :
  all_or_nothing schedule_effect (timing_task env request).
Proof.
  intros w. run_cases.
  all: frame.
  all: settle.
  all: eexists; split; [|reflexivity]; reflexivity.
Qed.

Lemma cancel_all_or_nothing env request :
  all_or_nothing cancel_effect (cancel env request).
Proof.
  intros w. run_cases.
  all: frame.
  all: settle.
  all: cbn.
  all: try (left; eexists; split; [|split; reflexivity]; cbn; tauto).
  all: try (right; eexists; split; reflexivity).
Qed.

(** Approve, schedule and cancel are all-or-nothing. For every call:
    an exception raised inside the atomic block leaves the store as it was
    and is reported on the error page; the store changes only when the
    transaction commits, and then by the whole effect (status together
    with the log entry or decision, never one without the other); a
    rejection with a message (authority, timing window, input) happens
    before any transaction begins and leaves the store untouched; an
    exception leaves the view only before the transaction begins or after
    it committed. *)
Theorem transactions_all_or_nothing (env : Env) (request : HttpRequest) :
  all_or_nothing approve_effect (passed env request)
  /\ all_or_nothing schedule_effect (timing_task env request)
  /\ all_or_nothing cancel_effect (cancel env request).
Proof.
  split; [apply passed_all_or_nothing|].
  split; [apply timing_task_all_or_nothing | apply cancel_all_or_nothing].
Qed.

(** A schedule call whose workflow has no audit record fails after the
    status write and the registration: both are rolled back. *)
Example timing_task_rolls_back :
  exists w',
    timing_task (Sample.env Sample.single_level None Sample.ten_o_clock)
      (Sample.form Sample.alice [("workflow_id", "7"); ("run_date", "2030-01-02 08:00")])
      (Sample.orphan_world "workflow_review_pass")
    = (Return (render_error (Caught DoesNotExist)), w')
    /\ db w' = db (Sample.orphan_world "workflow_review_pass")
    /\ journal w'
       = [call_can_timingtask Sample.alice (PyStr "7");
          call_on_correct_time_period (PyStr "7") (Some (Sample.at_ 2030 1 2 8 0 0));
          tx_begin;
          call_add_sql_schedule "sqlreview-timing-7" (Sample.at_ 2030 1 2 8 0 0)
            (PyStr "7");
          call_detail_by_workflow_id (PyStr "7") 2;
          tx_rollback].
Proof. eexists. split; [vm_compute; reflexivity | split; reflexivity]. Qed.

(** ** Cancel *)

(** A cancel of a workflow in workflow_manreviewing, with a reason
    supplied and the cancel guard passed (collaborators answering): by the
    submitter, exactly one abort decision is submitted and the final
    status is workflow_abort; by a non-submitter holding review authority,
    exactly one reject decision and the same final status; by an actor
    who is neither, PermissionDenied is raised inside the atomic block,
    caught by the view and shown on the error page, no decision is
    submitted and the store is unchanged. *)
Theorem cancel_in_review_cases (env : Env) (request : HttpRequest) (w : World)
    (s : string) (wid : Z) (row : SqlWorkflow) (remark : string) (a : WorkflowAudit) :
  POST request !! "workflow_id" = Some s ->
  Py.int s = Some wid ->
  wid <> 0 ->
  workflows (db w) !! wid = Some row ->
  status row = "workflow_manreviewing" ->
  POST request !! "cancel_remark" = Some remark ->
  ext_can_cancel env (db w) (user request) (PyInt wid) = true ->
  reliable env ->
  find (audit_of wid (sqlreview (const env))) (audits (db w)) = Some a ->
  cancel_in_review env request w wid row remark a.
Proof.
  intros Hs Hint Hnz Hrow Hst Hremark Hcan Hrel Ha.
  unfold cancel_in_review. cbn zeta.
  apply Z.eqb_neq in Hnz.
  run_cases.
  all: try (rewrite Hst in *; discriminate).
  all: frame.
  all: settle.
Qed.

Example cancel_in_review_by_submitter :
  cancel_in_review
    (Sample.env Sample.single_level None Sample.ten_o_clock)
    (Sample.form Sample.alice [("workflow_id", "7"); ("cancel_remark", "no longer needed")])
    (Sample.world "workflow_manreviewing")
    7 (Sample.workflow "workflow_manreviewing") "no longer needed"
    {| audit_id := 70; workflow_id := 7; workflow_type := 2; current_status := 0 |}.
Proof.
  apply (cancel_in_review_cases _ _ _ "7");
    [reflexivity | reflexivity | lia | reflexivity | reflexivity | reflexivity
    | reflexivity | intros st c; reflexivity | reflexivity].
Qed.

(** Scenario B, the submitter's cancel: one abort decision, and the
    notification when the phase "Cancel" is enabled. *)
Example cancel_by_submitter :
  exists w',
    cancel (Sample.env Sample.single_level (Some "Cancel") Sample.ten_o_clock)
      (Sample.form Sample.alice
         [("workflow_id", "7"); ("cancel_remark", "no longer needed")])
      (Sample.world "workflow_manreviewing")
    = (Return (HttpResponseRedirect (PyInt 7)), w')
    /\ decided_status <$> audit_calls (journal w') = [3]
    /\ status <$> workflows (db w') !! 7 = Some "workflow_abort"
    /\ enqueued (journal w')
       = [notify_for_audit 70 "no longer needed" 60 "sqlreview-cancel-7"].
Proof. eexists. split; [vm_compute; reflexivity | repeat split]. Qed.

(** C2. The hard authorization failure of cancel does not leave the
    view. Carol is neither the submitter of workflow 7 nor a reviewer, the
    workflow is in workflow_manreviewing, a reason is supplied and the
    cancel guard lets her through: line 349 raises PermissionDenied inside
    the try block, the except clause catches it, and the view answers with
    the error page. Nothing is written and no decision is submitted. *)
Theorem C2_permission_denied_caught :
  let env := Sample.env Sample.single_level None Sample.ten_o_clock in
  let request :=
    Sample.form Sample.carol [("workflow_id", "7"); ("cancel_remark", "stop")] in
  let w := Sample.world "workflow_manreviewing" in
  (status <$> workflows (db w) !! 7 = Some "workflow_manreviewing"
   /\ POST request !! "cancel_remark" = Some "stop"
   /\ ext_can_cancel env (db w) (user request) (PyInt 7) = true
   /\ String.eqb (username (user request)) (engineer (Sample.workflow "workflow_manreviewing")) = false
   /\ has_perm (user request) "sql.sql_review" = false)
  /\ fst (cancel env request w) = Return (render_error (Caught PermissionDenied))
  /\ fst (cancel env request w) <> Raise PermissionDenied
  /\ db (snd (cancel env request w)) = db w
  /\ audit_calls (journal (snd (cancel env request w))) = [].
Proof.
  cbv zeta. split; [repeat split|].
  split; [vm_compute; reflexivity|].
  split; [vm_compute; discriminate|].
  split; vm_compute; reflexivity.
Qed.

(** C7. An authority failure after the transaction began. The same call
    of Carol: the review-authority check of cancel (lines 341-349) sits
    inside the atomic block, so its failure comes after the transaction
    began and ends it by a rollback, where every other guard of the three
    views answers before any transaction begins. *)
Theorem C7_authority_failure_inside_transaction :
  let env := Sample.env Sample.single_level None Sample.ten_o_clock in
  let request :=
    Sample.form Sample.carol [("workflow_id", "7"); ("cancel_remark", "stop")] in
  let w := Sample.world "workflow_manreviewing" in
  cancel env request w
  = (Return (render_error (Caught PermissionDenied)),
     {| db := db w;
        journal := [call_can_cancel Sample.carol (PyInt 7); tx_begin;
                    call_detail_by_workflow_id (PyInt 7) 2; tx_rollback] |})
  /\ began (journal (snd (cancel env request w))) = true.
Proof. cbv zeta. split; vm_compute; reflexivity. Qed.

(** C3. A cancel of a workflow whose status is not workflow_manreviewing
    never calls the gateway's decision endpoint; when it passes the guards
    (collaborators answering) it appends exactly one audit log entry, of
    operation type 3 "cancel execution" for the submitter and 2 "review
    rejected" otherwise, removes the named timing schedule if the status
    was workflow_timingtask, and leaves the status workflow_abort. *)
Theorem C3_cancel_past_review (env : Env) (request : HttpRequest) (w : World)
    (s : string) (wid : Z) (row : SqlWorkflow) :
  POST request !! "workflow_id" = Some s ->
  Py.int s = Some wid ->
  workflows (db w) !! wid = Some row ->
  status row <> "workflow_manreviewing" ->
  cancel_past_review env request w wid row.
Proof.
  intros Hs Hint Hrow Hst. apply String.eqb_neq in Hst.
  split.
  - run_cases.
    all: frame.
    all: settle.
  - intros remark a Hnz Hremark Hcan Hrel Ha name scheduled.
    subst name scheduled. unfold cancel_entry.
    apply Z.eqb_neq in Hnz.
    run_cases.
    all: do 2 eexists; split; [reflexivity|].
    all: cbn [journal db]; rewrite <- ?app_assoc.
    all: split; [reflexivity|].
    all: settle.
Qed.

Lemma C3_cancel_past_review_witness :
  let env := Sample.env Sample.single_level None Sample.ten_o_clock in
  let request :=
    Sample.form Sample.bob [("workflow_id", "7"); ("cancel_remark", "wrong target")] in
  let w := Sample.world "workflow_timingtask" in
  cancel_past_review env request w 7 (Sample.workflow "workflow_timingtask")
  /\ exists w' delta,
       cancel env request w = (Return (HttpResponseRedirect (PyInt 7)), w')
       /\ journal w' = journal w ++ delta
       /\ operation_type <$> log_calls delta = [2]
       /\ deleted_schedules delta = ["sqlreview-timing-7"].
Proof.
  cbv zeta.
  pose proof (C3_cancel_past_review
                (Sample.env Sample.single_level None Sample.ten_o_clock)
                (Sample.form Sample.bob
                   [("workflow_id", "7"); ("cancel_remark", "wrong target")])
                (Sample.world "workflow_timingtask")
                "7" 7 (Sample.workflow "workflow_timingtask")
                ltac:(reflexivity) ltac:(reflexivity) ltac:(reflexivity)
                ltac:(compute_done)) as H.
  split; [exact H|].
  destruct H as [_ H].
  destruct (H "wrong target"
              {| audit_id := 70; workflow_id := 7; workflow_type := 2;
                 current_status := 0 |})
    as [w' [delta [Hrun [Hj [Hlog [_ [Hdel _]]]]]]];
    [lia | reflexivity | reflexivity | intros st c; reflexivity | reflexivity |].
  exists w', delta. rewrite Hlog, Hdel. repeat split; assumption.
Defined.

(** A reviewer's cancel of a scheduled workflow: one log entry of type 2,
    the schedule deleted, no decision. *)
Example cancel_by_reviewer_past_review :
  exists w',
    cancel (Sample.env Sample.single_level None Sample.ten_o_clock)
      (Sample.form Sample.bob [("workflow_id", "7"); ("cancel_remark", "wrong target")])
      (Sample.world "workflow_timingtask")
    = (Return (HttpResponseRedirect (PyInt 7)), w')
    /\ operation_type <$> audit_log (db w') = [2]
    /\ deleted_schedules (journal w') = ["sqlreview-timing-7"]
    /\ audit_calls (journal w') = []
    /\ status <$> workflows (db w') !! 7 = Some "workflow_abort".
Proof. eexists. split; [vm_compute; reflexivity | repeat split]. Qed.

(** An absent reason is refused before anything is written or asked. *)
Lemma cancel_without_reason (env : Env) (request : HttpRequest) (w : World)
    (s : string) (wid : Z) (row : SqlWorkflow) :
  POST request !! "workflow_id" = Some s ->
  Py.int s = Some wid ->
  wid <> 0 ->
  workflows (db w) !! wid = Some row ->
  POST request !! "cancel_remark" = None ->
  cancel env request w = (Return (render_error (Message "终止原因不能为空")), w).
Proof.
  intros Hs Hint Hnz Hrow Hremark. apply Z.eqb_neq in Hnz.
  run_cases. reflexivity.
Qed.

(** C5. The cancel guard tests the reason against [None] only: a cancel
    whose reason is the empty string is accepted. Alice cancels her
    workflow 7 with an empty reason; the workflow is aborted and the log
    records an empty reason. *)
Theorem C5_empty_reason_accepted :
  exists w',
    cancel (Sample.env Sample.single_level None Sample.ten_o_clock)
      (Sample.form Sample.alice [("workflow_id", "7"); ("cancel_remark", "")])
      (Sample.world "workflow_review_pass")
    = (Return (HttpResponseRedirect (PyInt 7)), w')
    /\ status <$> workflows (db w') !! 7 = Some "workflow_abort"
    /\ operation_info <$> audit_log (db w') = ["取消原因："].
Proof. eexists. split; [vm_compute; reflexivity | repeat split]. Qed.

(** ** Formatted times compare as times *)

Lemma digit_cases x :
  0 <= x <= 9 ->
  x = 0 \/ x = 1 \/ x = 2 \/ x = 3 \/ x = 4 \/ x = 5 \/ x = 6 \/ x = 7 \/ x = 8 \/ x = 9.
Proof. lia. Qed.

Ltac each_digit x H :=
  let D := fresh "D" in
  pose proof (digit_cases x H) as D;
  repeat (destruct D as [D | D]); subst x.

Lemma digit_compare x y :
  0 <= x <= 9 -> 0 <= y <= 9 -> Ascii.compare (digit x) (digit y) = (x ?= y).
Proof. intros Hx Hy. each_digit x Hx; each_digit y Hy; reflexivity. Qed.

Lemma compare_same_head c s t :
  String.compare (String c s) (String c t) = String.compare s t.
Proof.
  cbn. unfold Ascii.compare. now rewrite N.compare_refl.
Qed.

Lemma compare_pad2 a b s t :
  0 <= a < 100 -> 0 <= b < 100 ->
  String.compare (pad2 a +:+ s) (pad2 b +:+ t)
  = match a ?= b with Eq => String.compare s t | c => c end.
Proof.
  intros Ha Hb. unfold pad2. rewrite !append_cons, !append_nil_l.
  cbn [String.compare].
  rewrite !digit_compare by (split; [apply Z.mod_pos_bound | apply Z.lt_succ_r, Z.mod_pos_bound]; lia).
  destruct (Z.compare_spec (a / 10 mod 10) (b / 10 mod 10));
    destruct (Z.compare_spec (a mod 10) (b mod 10));
    destruct (Z.compare_spec a b); try reflexivity; exfalso;
    Z.to_euclidean_division_equations; lia.
Qed.

Lemma pad4_pad2 a : pad4 a = pad2 (a / 100) +:+ pad2 (a mod 100).
Proof.
  unfold pad4, pad2. rewrite !append_cons, !append_nil_l.
  replace (a / 100 / 10) with (a / 1000) by (Z.to_euclidean_division_equations; lia).
  replace (a mod 100 / 10 mod 10) with (a / 10 mod 10)
    by (Z.to_euclidean_division_equations; lia).
  replace (a mod 100 mod 10) with (a mod 10)
    by (Z.to_euclidean_division_equations; lia).
  reflexivity.
Qed.

Lemma append_assoc (a b c : string) : (a +:+ b) +:+ c = a +:+ (b +:+ c).
Proof. induction a as [|x a IH]; [reflexivity|]. now rewrite !append_cons, IH. Qed.

Lemma compare_pad4 a b s t :
  0 <= a < 10000 -> 0 <= b < 10000 ->
  String.compare (pad4 a +:+ s) (pad4 b +:+ t)
  = match a ?= b with Eq => String.compare s t | c => c end.
Proof.
  intros Ha Hb. rewrite !pad4_pad2, !append_assoc.
  rewrite compare_pad2 by (Z.to_euclidean_division_equations; lia).
  destruct (Z.compare_spec (a / 100) (b / 100)).
  - rewrite compare_pad2 by (Z.to_euclidean_division_equations; lia).
    destruct (Z.compare_spec (a mod 100) (b mod 100));
      destruct (Z.compare_spec a b); try reflexivity; exfalso;
      Z.to_euclidean_division_equations; lia.
  - destruct (Z.compare_spec a b); try reflexivity; exfalso;
      Z.to_euclidean_division_equations; lia.
  - destruct (Z.compare_spec a b); try reflexivity; exfalso;
      Z.to_euclidean_division_equations; lia.
Qed.

Lemma days_in_month_le y m : days_in_month y m <= 31.
Proof. unfold days_in_month. repeat case_match; lia. Qed.

(** The ranges of the fields of a valid [datetime]. *)
Lemma valid_ranges t :
  valid t = true ->
  1 <= year t <= 9999 /\ 1 <= month t <= 12 /\ 1 <= day t <= 31
  /\ 0 <= hour t <= 23 /\ 0 <= minute t <= 59 /\ 0 <= second t <= 59.
Proof.
  unfold valid. rewrite !andb_true_iff, !Z.leb_le.
  pose proof (days_in_month_le (year t) (month t)). lia.
Qed.

(** A time to the minute, written with zero padding, is below the
    current time written to the second exactly when it is not later:
    text order and time order agree, and the shorter text comes first
    within the same minute. *)
Lemma not_later_is_below t n :
  valid t = true -> second t = 0 -> valid n = true ->
  before n t = false ->
  Py.lt (strftime_minutes t) (strftime_seconds n) = true.
Proof.
  intros Ht Hs Hn Hle.
  apply valid_ranges in Ht, Hn.
  unfold Py.lt, String.ltb, strftime_seconds, strftime_minutes.
  rewrite !append_assoc.
  rewrite compare_pad4 by lia.
  unfold before, key, lex_lt in Hle. rewrite Hs in Hle.
  destruct (Z.compare_spec (year t) (year n)) as [Hy|Hy|Hy]; [|reflexivity|].
  2:{ exfalso. apply Z.ltb_lt in Hy. rewrite Hy in Hle. discriminate. }
  rewrite ?append_cons, ?append_nil_l, compare_same_head, compare_pad2 by lia.
  destruct (Z.compare_spec (month t) (month n)) as [Hm|Hm|Hm]; [|reflexivity|].
  2:{ exfalso. rewrite Hy, Z.ltb_irrefl, Z.eqb_refl in Hle.
      apply Z.ltb_lt in Hm. rewrite Hm in Hle. discriminate. }
  rewrite ?append_cons, ?append_nil_l, compare_same_head, compare_pad2 by lia.
  destruct (Z.compare_spec (day t) (day n)) as [Hd|Hd|Hd]; [|reflexivity|].
  2:{ exfalso. rewrite Hy, Hm, !Z.ltb_irrefl, !Z.eqb_refl in Hle.
      apply Z.ltb_lt in Hd. rewrite Hd in Hle. discriminate. }
  rewrite ?append_cons, ?append_nil_l, compare_same_head, compare_pad2 by lia.
  destruct (Z.compare_spec (hour t) (hour n)) as [Hh|Hh|Hh]; [|reflexivity|].
  2:{ exfalso. rewrite Hy, Hm, Hd, !Z.ltb_irrefl, !Z.eqb_refl in Hle.
      apply Z.ltb_lt in Hh. rewrite Hh in Hle. discriminate. }
  rewrite ?append_cons, ?append_nil_l, compare_same_head.
  rewrite <- (append_nil_l (":" +:+ pad2 (second n))) at 1.
  replace (pad2 (minute t)) with (pad2 (minute t) +:+ "") by (unfold pad2; reflexivity).
  rewrite compare_pad2 by lia.
  destruct (Z.compare_spec (minute t) (minute n)) as [Hi|Hi|Hi]; [reflexivity|reflexivity|].
  exfalso. rewrite Hy, Hm, Hd, Hh, !Z.ltb_irrefl, !Z.eqb_refl in Hle.
  apply Z.ltb_lt in Hi. rewrite Hi in Hle. discriminate.
Qed.

(** ** Schedule *)

(** What schedule does with run_date once its permission check has
    passed. An absent run_date, and one that compares, as text, below the
    current time written as %Y-%m-%d %H:%M:%S, are answered with a
    message before any transaction or state change; every time to the
    minute written with zero padding that is not strictly later than the
    current time is such a one, the current minute included. A run_date
    that does not parse as %Y-%m-%d %H:%M is never scheduled: the call is
    turned down before any transaction, with a message or an exception,
    and nothing is registered. *)
Theorem timing_task_run_date_guard (env : Env) (request : HttpRequest) (w : World) :
  has_perm (user request) "sql.sql_execute"
  || has_perm (user request) "sql.sql_execute_for_resource_group" = true ->
  run_date_guard env request w.
Proof.
  intros Hperm.
  assert (Hearly : forall rd wid,
             POST request !! "run_date" = Some rd ->
             POST request !! "workflow_id" = Some wid ->
             Py.lt rd (strftime_seconds (now env)) = true ->
             timing_task env request w
             = (Return (render_error (Message "时间不能小于当前时间")), w)).
  { intros rd wid Hrd Hwid Hlt. run_cases. reflexivity. }
  unfold run_date_guard. cbv zeta.
  split; [|split; [|split]].
  - intros Hrd. run_cases; reflexivity.
  - exact Hearly.
  - intros t wid Ht Hsec Hn Hle Hrd Hwid.
    apply (Hearly _ wid Hrd Hwid).
    now apply not_later_is_below.
  - intros rd Hrd Hnone. unfold refused_unchanged. run_cases.
    all: frame.
    all: settle.
Qed.

(** Scenario C: the current minute as run_date is answered with the
    message and nothing is registered. *)
Example timing_task_current_minute :
  timing_task (Sample.env Sample.single_level None Sample.ten_o_clock)
    (Sample.form Sample.alice [("workflow_id", "7"); ("run_date", "2030-01-01 10:00")])
    (Sample.world "workflow_review_pass")
  = (Return (render_error (Message "时间不能小于当前时间")),
     Sample.world "workflow_review_pass").
Proof. vm_compute. reflexivity. Qed.

(** The current time written to the second is not below itself and does
    not parse to the minute: the view raises. *)
Example timing_task_current_second :
  fst (timing_task (Sample.env Sample.single_level None Sample.ten_o_clock)
         (Sample.form Sample.alice
            [("workflow_id", "7"); ("run_date", "2030-01-01 10:00:00")])
         (Sample.world "workflow_review_pass"))
  = Raise ValueError.
Proof. vm_compute. reflexivity. Qed.

(** C4. A run date in the past is scheduled. At 10:00 on 2030-01-01 the
    run_date "2030-01-01 9:00", an hour earlier and written without the
    zero of the hour, is not below the current time as text ("9" is above
    "1"), so the test of line 238 lets it through; it parses, and the
    view sets the status, registers the schedule for 09:00 and redirects.
    A malformed run_date above the current time as text, "tomorrow", is
    not answered with a message either: it fails in strptime and the view
    raises. *)
Theorem C4_past_run_date_scheduled :
  let env := Sample.env Sample.single_level None Sample.ten_o_clock in
  let w := Sample.world "workflow_review_pass" in
  let malformed :=
    timing_task env
      (Sample.form Sample.alice [("workflow_id", "7"); ("run_date", "tomorrow")]) w in
  let earlier :=
    timing_task env
      (Sample.form Sample.alice [("workflow_id", "7"); ("run_date", "2030-01-01 9:00")])
      w in
  fst malformed = Raise ValueError
  /\ strptime_minutes "2030-01-01 9:00" = Some (Sample.at_ 2030 1 1 9 0 0)
  /\ before (Sample.at_ 2030 1 1 9 0 0) (now env) = true
  /\ fst earlier = Return (HttpResponseRedirect (PyStr "7"))
  /\ (status <$> workflows (db (snd earlier)) !! 7) = Some "workflow_timingtask"
  /\ next_run <$> schedules (db (snd earlier)) !! "sqlreview-timing-7"
     = Some (Sample.at_ 2030 1 1 9 0 0).
Proof. cbv zeta. repeat split; vm_compute; reflexivity. Qed.

(** ** The workflow_id of a request *)

Lemma workflow_id_rejection_is_rejection request :
  is_rejection (workflow_id_rejection request).
Proof. unfold workflow_id_rejection. repeat case_match; exact I. Qed.

(** The answers of schedule and OSC control to a [workflow_id] that
    denotes no row, on every path they can take. *)
Ltac turn_down :=
  unfold schedule_rejection, osc_rejection, field; run_cases;
  try match goal with
      | H : (0 =? 0) = false |- _ => discriminate H
      end;
  reflexivity.

(** C8 (as amended). A request whose workflow_id is absent, zero or not a
    number is turned down by every mutating endpoint, with no collaborator
    called and nothing changed. Cancel, approve, alter run date and
    execute answer before any guard or transition logic, with the message
    "workflow_id参数为空." (absent or zero) or the ValueError of the
    conversion (not a number); in approve, alter run date and execute the
    permission check comes first and answers PermissionDenied when it
    fails. Schedule answers an absent workflow_id with "时间不能为空", after
    its permission check, and OSC control with DoesNotExist; what is not a
    number OSC control answers with ValueError. For the rest schedule,
    after its test of run_date (the message "时间不能小于当前时间"), and OSC
    control leave the workflow_id to the lookup of the row, which raises
    ValueError for what is not a number and DoesNotExist for zero, the
    workflow table having no row 0. *)
Theorem C8_workflow_id_checked (request : HttpRequest) :
  malformed_workflow_id request -> workflow_id_checked request.
Proof.
  unfold malformed_workflow_id, workflow_id_checked, workflow_id_rejection, field.
  intros Hbad. cbv zeta.
  destruct (POST request !! "workflow_id") as [s|] eqn:Hs.
  - destruct Hbad as [Hint | Hint]; rewrite Hint.
    + do 7 (split; [intros; try congruence; run_cases; reflexivity|]).
      intros env w Hzero. split; turn_down.
    + do 7 (split; [intros; try congruence; run_cases; try reflexivity;
                    match goal with H : (0 =? 0) = false |- _ => discriminate H end|]).
      intros env w Hzero. split; turn_down.
  - do 7 (split; [intros; try congruence; run_cases; try reflexivity;
                  match goal with H : (0 =? 0) = false |- _ => discriminate H end|]).
    intros env w Hzero. split; turn_down.
Qed.

Lemma C8_workflow_id_checked_witness :
  workflow_id_checked (Sample.form Sample.bob [("workflow_id", "0")]).
Proof.
  apply C8_workflow_id_checked. right. reflexivity.
Defined.

(** Schedule with a workflow_id that is not a number: the answer depends
    on the clock. In 2031 the run_date guard answers; in 2029 the guard
    lets the request through and the row lookup raises. *)
Lemma C8_counterexample :
  ~ (forall ep request,
       malformed_workflow_id request -> rejected_before_guards ep request).
Proof.
  intros Hall.
  destruct (Hall schedule
              (Sample.form Sample.alice
                 [("workflow_id", "abc"); ("run_date", "2030-01-01 00:00")]))
    as [out [_ Hout]]; [left; reflexivity|].
  pose proof (Hout (Sample.env Sample.single_level None (Sample.at_ 2031 1 1 0 0 0))
                (Sample.world "workflow_review_pass")) as H1.
  pose proof (Hout (Sample.env Sample.single_level None (Sample.at_ 2029 1 1 0 0 0))
                (Sample.world "workflow_review_pass")) as H2.
  vm_compute in H1, H2. congruence.
Qed.

(** Zero is a number like any other to schedule: were there a row 0, it
    would be scheduled. *)
Example schedule_of_row_zero :
  fst (timing_task (Sample.env Sample.single_level None Sample.ten_o_clock)
         (Sample.form Sample.alice
            [("workflow_id", "0"); ("run_date", "2030-01-02 08:00")])
         {| db := {| workflows := {[ 0 := Sample.workflow "workflow_review_pass" ]};
                     audits := [ {| audit_id := 1; workflow_id := 0;
                                    workflow_type := 2; current_status := 1 |} ];
                     decisions := []; audit_log := []; schedules := ∅ |};
            journal := [] |})
  = Return (HttpResponseRedirect (PyStr "0")).
Proof. vm_compute. reflexivity. Qed.

(** OSC control does not look at the workflow_id itself: what is not a
    number fails in the row lookup. *)
Example osc_control_not_a_number :
  fst (osc_control (Sample.env Sample.single_level None Sample.ten_o_clock)
         (Sample.form Sample.alice [("workflow_id", "abc"); ("command", "kill")])
         (Sample.world "workflow_queuing"))
  = Raise ValueError.
Proof. vm_compute. reflexivity. Qed.

(** * Further properties of the views *)

(** [run_cases], reading back a row just written. *)
Ltac run_through :=
  unfold_views;
  repeat first [rewrite find_decide_audit | rewrite lookup_insert_eq
               | progress reduce | split_on_inspected].

(** ** Execute, manual mode *)

(** X1. An execute call in manual mode that passes its guards, with
    collaborators that answer, writes status workflow_finish and the
    current time as finish time in one update, appends one log entry of
    type 6, enqueues nothing, leaves the schedule registry alone, and
    calls the notifier in line with the finished row exactly when the gate
    permits the phase "Execute". *)
Theorem execute_manual (env : Env) (request : HttpRequest) (w : World)
    (wid : Z) (row : SqlWorkflow) (a : WorkflowAudit) :
  execute_admitted env request w wid ->
  POST request !! "mode" = Some "manual" ->
  reliable env ->
  workflows (db w) !! wid = Some row ->
  find (audit_of wid (sqlreview (const env))) (audits (db w)) = Some a ->
  execute_manual_effect env request w wid row a.
Proof.
  intros (Hperm & (s & Hs & Hint) & Hnz & Hexec & Hwin) Hmode Hrel Hrow Ha.
  apply Z.eqb_neq in Hnz.
  assert (Hauto : is_str (POST request !! "mode") "auto" = false)
    by (rewrite Hmode; reflexivity).
  assert (Hman : is_str (POST request !! "mode") "manual" = true)
    by (rewrite Hmode; reflexivity).
  unfold execute_manual_effect.
  destruct (is_notified "Execute" (notify_phase_control env)) eqn:Hgate.
  all: eexists; split; [run_through; reflexivity|].
  all: cbn [db journal workflows schedules audit_log decisions].
  all: rewrite <- ?app_assoc; repeat split.
Qed.

Lemma execute_manual_witness :
  execute_manual_effect
    (Sample.env Sample.single_level (Some "Pass,Execute") Sample.ten_o_clock)
    (Sample.form Sample.alice [("workflow_id", "7"); ("mode", "manual")])
    (Sample.world "workflow_review_pass")
    7 (Sample.workflow "workflow_review_pass")
    {| audit_id := 70; workflow_id := 7; workflow_type := 2; current_status := 0 |}.
Proof.
  apply execute_manual;
    [| reflexivity | intros st c; reflexivity | reflexivity | reflexivity].
  split; [reflexivity|]. split; [exists "7"; split; reflexivity|].
  split; [lia|]. split; reflexivity.
Defined.

(** ** Execute, automatic mode, without a transaction *)

(** X2. Execute in automatic mode is not transactional: when the task
    queue raises on the enqueue call, the exception leaves the view, and
    the status workflow_queuing and the removal of the timing schedule,
    both written before, stay; no log entry is written. *)
Theorem execute_auto_queue_failure (env : Env) (request : HttpRequest) (w : World)
    (wid : Z) (row : SqlWorkflow) (a : WorkflowAudit) (e : exn) :
  execute_admitted env request w wid ->
  POST request !! "mode" = Some "auto" ->
  queue_refuses env e ->
  workflows (db w) !! wid = Some row ->
  find (audit_of wid (sqlreview (const env))) (audits (db w)) = Some a ->
  execute_auto_half_done env request w wid row e.
Proof.
  intros (Hperm & (s & Hs & Hint) & Hnz & Hexec & Hwin) Hmode Hq Hrow Ha.
  apply Z.eqb_neq in Hnz.
  assert (Hauto : is_str (POST request !! "mode") "auto" = true)
    by (rewrite Hmode; reflexivity).
  unfold execute_auto_half_done.
  eexists. split.
  - unfold_views.
    repeat first [rewrite Hq | progress reduce | split_on_inspected].
    reflexivity.
  - cbn [db journal workflows schedules audit_log].
    repeat split.
    unfold log_calls. rewrite <- !app_assoc, !omap_app. cbn.
    now rewrite app_nil_r.
Qed.

Lemma execute_auto_queue_failure_witness :
  execute_auto_half_done Outage.env
    (Sample.form Sample.alice [("workflow_id", "7"); ("mode", "auto")])
    (Sample.world "workflow_review_pass")
    7 (Sample.workflow "workflow_review_pass")
    (CollaboratorError "broker unreachable").
Proof.
  apply (execute_auto_queue_failure _ _ _ _ _
           {| audit_id := 70; workflow_id := 7; workflow_type := 2;
              current_status := 0 |});
    [| reflexivity | intros st c; reflexivity | reflexivity | reflexivity].
  split; [reflexivity|]. split; [exists "7"; split; reflexivity|].
  split; [lia|]. split; reflexivity.
Defined.

(** ** Execute, on every call *)

(** X3. Whatever the request, the store and the collaborators: execute
    opens no transaction, submits no audit decision, changes no audit
    record and adds no entry to the schedule registry; and when it answers
    with the error page, nothing was written, enqueued or logged. *)
Theorem execute_never (env : Env) (request : HttpRequest) (w : World) :
  execute_bounds env request w.
Proof.
  unfold execute_bounds.
  run_through.
  all: frame.
  all: cbn; repeat split; intros; simplify_eq; try discriminate; try reflexivity;
    eauto.
  all: match goal with
       | H : delete _ _ !! _ = Some _ |- _ =>
           apply lookup_delete_Some in H; apply H
       end.
Qed.

Lemma execute_redirect_inv env request w w' target :
  execute env request w = (Return (HttpResponseRedirect target), w') ->
  exists s wid,
    POST request !! "workflow_id" = Some s /\ Py.int s = Some wid /\ wid <> 0
    /\ target = PyInt wid
    /\ executed_as env request w w' wid.
Proof.
  unfold executed_as.
  destruct (is_str (POST request !! "mode") "auto") eqn:Hauto;
    [|destruct (is_str (POST request !! "mode") "manual") eqn:Hman].
  all: run_through.
  all: intros Hrun; simplify_eq.
  all: match goal with
       | H : (_ =? 0) = false |- _ => apply Z.eqb_neq in H
       end.
  all: do 2 eexists; split; [reflexivity|]; split; [eassumption|].
  all: split; [assumption|]; split; [reflexivity|].
  all: eexists; split; [eassumption|]; cbn; do 2 (split; [reflexivity|]).
  all: try reflexivity.
  all: eexists; repeat split; eassumption.
Qed.

(** X4. A redirect of execute tells what was done, by the mode: the
    audit record exists, and the workflow was queued (status, removal of
    the schedule named after the number, log entry of type 5), or finished
    (status with finish time, log entry of type 6), or, for any other mode,
    an absent one included, nothing at all was written. *)
Theorem execute_redirect (env : Env) (request : HttpRequest) (w w' : World)
    (target : pyval) :
  execute env request w = (Return (HttpResponseRedirect target), w') ->
  exists s wid,
    POST request !! "workflow_id" = Some s /\ Py.int s = Some wid /\ wid <> 0
    /\ target = PyInt wid
    /\ executed_as env request w w' wid.
Proof. apply execute_redirect_inv. Qed.

Lemma execute_redirect_witness :
  exists s wid,
    POST (Sample.form Sample.alice [("workflow_id", "7")]) !! "workflow_id" = Some s
    /\ Py.int s = Some wid /\ wid <> 0
    /\ PyInt 7 = PyInt wid
    /\ executed_as (Sample.env Sample.single_level None Sample.ten_o_clock)
         (Sample.form Sample.alice [("workflow_id", "7")])
         (Sample.world "workflow_review_pass")
         (snd (execute (Sample.env Sample.single_level None Sample.ten_o_clock)
                 (Sample.form Sample.alice [("workflow_id", "7")])
                 (Sample.world "workflow_review_pass")))
         wid.
Proof.
  apply execute_redirect. vm_compute. reflexivity.
Defined.

(** ** Alter run date *)

(** X5. An alter-run-date call past its permission, workflow_id and
    review-authority checks makes the one authority call and then saves
    the two bounds: when the date columns take both submitted values, an
    empty or absent field standing for no bound, and the row exists, both
    bounds of the row are overwritten, an empty or absent field clearing
    the bound, and the view redirects; a value a column refuses (a text
    that denotes no time) raises ValidationError before anything is
    written, and a missing row makes the update fail: the error page shows
    the exception and the store is as before. *)
Theorem alter_run_date_overwrites (env : Env) (request : HttpRequest) (w : World)
    (s : string) (wid : Z) :
  has_perm (user request) "sql.sql_review" = true ->
  POST request !! "workflow_id" = Some s ->
  Py.int s = Some wid ->
  wid <> 0 ->
  ext_faults env (db w) (call_can_review (user request) (PyInt wid) 2) = None ->
  ext_can_review env (db w) (user request) (PyInt wid) 2 = true ->
  run_dates_overwritten env request w wid.
Proof.
  intros Hperm Hs Hint Hnz Hok Hrev. unfold run_dates_overwritten, bound_of.
  apply Z.eqb_neq in Hnz.
  run_through.
  all: do 2 eexists; split; [reflexivity|]; split; [reflexivity|].
  all: split; reflexivity.
Qed.

Lemma alter_run_date_overwrites_witness :
  run_dates_overwritten
    (Sample.env Sample.single_level None Sample.ten_o_clock)
    (Sample.form Sample.bob
       [("workflow_id", "7"); ("run_date_start", "2030-01-02 08:00");
        ("run_date_end", "")])
    (Sample.world "workflow_review_pass") 7.
Proof.
  apply (alter_run_date_overwrites _ _ _ "7");
    [reflexivity | reflexivity | reflexivity | lia | reflexivity | reflexivity].
Defined.

(** The row the witness leaves: the start bound set, the end bound
    cleared by the empty field, the status as it was. *)
Example alter_run_date_clears_empty_bound :
  exists w',
    alter_run_date (Sample.env Sample.single_level None Sample.ten_o_clock)
      (Sample.form Sample.bob
         [("workflow_id", "7"); ("run_date_start", "2030-01-02 08:00");
          ("run_date_end", "")])
      (Sample.world "workflow_review_pass")
    = (Return (HttpResponseRedirect (PyInt 7)), w')
    /\ workflows (db w') !! 7
       = Some {| status := "workflow_review_pass"; engineer := "alice";
                 run_date_start := Some (Sample.at_ 2030 1 2 8 0 0);
                 run_date_end := None;
                 finish_time := None; instance := "mysql-1" |}.
Proof. eexists. split; [vm_compute; reflexivity | reflexivity]. Qed.

(** A text that denotes no time is refused by the column: the error page,
    and the row as it was. *)
Example alter_run_date_refuses_text :
  alter_run_date (Sample.env Sample.single_level None Sample.ten_o_clock)
    (Sample.form Sample.bob [("workflow_id", "7"); ("run_date_start", "soon")])
    (Sample.world "workflow_review_pass")
  = (Return (render_error (Caught ValidationError)),
     {| db := Sample.store "workflow_review_pass";
        journal := [call_can_review Sample.bob (PyInt 7) 2] |}).
Proof. vm_compute. reflexivity. Qed.

(** X6. Whatever the request, the store and the collaborators: alter run
    date changes no status, submitter, finish time or instance of any
    workflow, adds and removes no row, and leaves audit records, decision
    trail, audit log and schedule registry as they were; it opens no
    transaction, writes no log entry and enqueues no task. *)
Theorem alter_run_date_only_run_dates (env : Env) (request : HttpRequest)
    (w : World) :
  only_run_dates_change env request w.
Proof.
  unfold only_run_dates_change.
  run_through.
  all: frame.
  all: cbn; repeat split.
  all: intros k.
  all: match goal with
       | H : workflows _ !! ?k0 = Some _ |- _ =>
           destruct (decide (k = k0)) as [->|Hne];
           [rewrite lookup_insert_eq, H | rewrite lookup_insert_ne by congruence];
           reflexivity
       end.
Qed.

(** ** What a redirect tells: schedule and cancel *)

Lemma timing_task_redirect_inv env request w w' target :
  timing_task env request w = (Return (HttpResponseRedirect target), w') ->
  exists s, target = PyStr s /\ scheduled_as env request w w' s.
Proof.
  unfold scheduled_as.
  run_through.
  all: intros Hrun; simplify_eq.
  all: eexists; split; [reflexivity|].
  all: do 5 eexists; repeat split; try eassumption; try reflexivity.
Qed.

Lemma cancel_redirect_inv env request w w' target :
  cancel env request w = (Return (HttpResponseRedirect target), w') ->
  exists k, target = PyInt k /\ cancelled_as request w w' k.
Proof.
  unfold cancelled_as.
  run_through.
  all: intros Hrun; simplify_eq.
  all: match goal with
       | H : (_ =? 0) = false |- _ => apply Z.eqb_neq in H
       end.
  all: eexists; split; [reflexivity|].
  all: do 3 eexists; repeat split; try eassumption; try reflexivity.
  all: match goal with
       | H : String.eqb _ "workflow_timingtask" = _ |- _ => rewrite H
       end.
  all: reflexivity.
Qed.

(** X7. A redirect of the schedule view tells what was written: the run
    date is not below the current time and parsed to the minute, the row
    was found under the number the form text denotes, and the status
    workflow_timingtask, the registry entry, named after the form text as
    submitted and due at the parsed time, and one log entry of type 4
    quoting that time were written together. *)
Theorem timing_task_redirect (env : Env) (request : HttpRequest) (w w' : World)
    (target : pyval) :
  timing_task env request w = (Return (HttpResponseRedirect target), w') ->
  exists s, target = PyStr s /\ scheduled_as env request w w' s.
Proof. apply timing_task_redirect_inv. Qed.

Lemma timing_task_redirect_witness :
  exists s,
    PyStr "7" = PyStr s
    /\ scheduled_as (Sample.env Sample.single_level None Sample.ten_o_clock)
         (Sample.form Sample.alice
            [("workflow_id", "7"); ("run_date", "2030-01-02 08:00")])
         (Sample.world "workflow_review_pass")
         (snd (timing_task (Sample.env Sample.single_level None Sample.ten_o_clock)
                 (Sample.form Sample.alice
                    [("workflow_id", "7"); ("run_date", "2030-01-02 08:00")])
                 (Sample.world "workflow_review_pass")))
         s.
Proof.
  apply timing_task_redirect. vm_compute. reflexivity.
Defined.

(** X8. A redirect of the cancel view tells what was written: the form
    held a number other than 0 and a cancel_remark, the row was found, its
    status is now workflow_abort, and the schedule registry lost the entry
    named after the number if the row was in status workflow_timingtask,
    and is as before otherwise. *)
Theorem cancel_redirect (env : Env) (request : HttpRequest) (w w' : World)
    (target : pyval) :
  cancel env request w = (Return (HttpResponseRedirect target), w') ->
  exists k, target = PyInt k /\ cancelled_as request w w' k.
Proof. apply cancel_redirect_inv. Qed.

Lemma cancel_redirect_witness :
  exists k,
    PyInt 7 = PyInt k
    /\ cancelled_as
         (Sample.form Sample.alice [("workflow_id", "7"); ("cancel_remark", "typo")])
         (Sample.world "workflow_timingtask")
         (snd (cancel (Sample.env Sample.single_level None Sample.ten_o_clock)
                 (Sample.form Sample.alice
                    [("workflow_id", "7"); ("cancel_remark", "typo")])
                 (Sample.world "workflow_timingtask")))
         k.
Proof.
  apply (cancel_redirect (Sample.env Sample.single_level None Sample.ten_o_clock)).
  vm_compute. reflexivity.
Defined.

(** ** Schedule, then cancel *)

Lemma append_inj_l p s t : p +:+ s = p +:+ t -> s = t.
Proof.
  induction p as [|c p IH]; [now rewrite !append_nil_l|].
  rewrite !append_cons. intros Heq. injection Heq as Heq. now apply IH.
Qed.

(** X9. The schedule view names the registry entry after the form text,
    the cancel view removes the name made from the number. When a
    schedule call and then a cancel call of the same workflow both
    redirect, the workflow is aborted, and its registry entry is gone
    exactly when the schedule call wrote the number the way Python prints
    it; written otherwise (a leading zero, a sign, surrounding blanks),
    the entry is still registered. *)
Theorem schedule_then_cancel (env env' : Env) (request request' : HttpRequest)
    (w w1 w2 : World) (s : string) (k : Z) :
  timing_task env request w = (Return (HttpResponseRedirect (PyStr s)), w1) ->
  cancel env' request' w1 = (Return (HttpResponseRedirect (PyInt k)), w2) ->
  Py.int s = Some k ->
  entry_after_cancel w1 w2 s k.
Proof.
  intros Hsched Hcancel Hint.
  apply timing_task_redirect_inv in Hsched as (s' & [= <-] & Hsched).
  apply cancel_redirect_inv in Hcancel as (k' & [= <-] & Hcancel).
  destruct Hsched as (rd & t & k0 & row & a & _ & _ & _ & _ & Hint' & _ & _
                      & Hwf1 & Hsch1 & _).
  destruct Hcancel as (s2 & row' & remark & _ & _ & _ & Hrow' & _ & Hwf2 & Hsch2).
  rewrite Hint in Hint'. injection Hint' as <-.
  rewrite Hwf1, lookup_insert_eq in Hrow'. injection Hrow' as <-.
  cbn in Hsch2.
  unfold entry_after_cancel. eexists.
  split; [rewrite Hsch1; apply lookup_insert_eq|].
  split; [reflexivity|].
  split; [rewrite Hwf2, lookup_insert_eq; reflexivity|].
  rewrite Hsch2, Hsch1.
  destruct (String.eqb_spec s (pretty k)) as [->|Hne].
  - apply lookup_delete_eq.
  - rewrite lookup_delete_ne; [apply lookup_insert_eq|].
    intros Heq. apply Hne. symmetry. exact (append_inj_l _ _ _ Heq).
Qed.

Lemma schedule_then_cancel_witness :
  entry_after_cancel
    (snd (timing_task (Sample.env Sample.single_level None Sample.ten_o_clock)
            (Sample.form Sample.alice
               [("workflow_id", "07"); ("run_date", "2030-01-02 08:00")])
            (Sample.world "workflow_review_pass")))
    (snd (cancel (Sample.env Sample.single_level None Sample.ten_o_clock)
            (Sample.form Sample.alice [("workflow_id", "7"); ("cancel_remark", "typo")])
            (snd (timing_task (Sample.env Sample.single_level None Sample.ten_o_clock)
                    (Sample.form Sample.alice
                       [("workflow_id", "07"); ("run_date", "2030-01-02 08:00")])
                    (Sample.world "workflow_review_pass")))))
    "07" 7.
Proof.
  apply (schedule_then_cancel
           (Sample.env Sample.single_level None Sample.ten_o_clock)
           (Sample.env Sample.single_level None Sample.ten_o_clock)
           (Sample.form Sample.alice
              [("workflow_id", "07"); ("run_date", "2030-01-02 08:00")])
           (Sample.form Sample.alice [("workflow_id", "7"); ("cancel_remark", "typo")])
           (Sample.world "workflow_review_pass"));
    [vm_compute; reflexivity | vm_compute; reflexivity | reflexivity].
Defined.

(** The run of the witness: workflow 7 ends aborted with its schedule
    still registered under the name the form text gave it. *)
Example aborted_workflow_keeps_schedule :
  exists w1 w2,
    timing_task (Sample.env Sample.single_level None Sample.ten_o_clock)
      (Sample.form Sample.alice
         [("workflow_id", "07"); ("run_date", "2030-01-02 08:00")])
      (Sample.world "workflow_review_pass")
    = (Return (HttpResponseRedirect (PyStr "07")), w1)
    /\ cancel (Sample.env Sample.single_level None Sample.ten_o_clock)
         (Sample.form Sample.alice [("workflow_id", "7"); ("cancel_remark", "typo")])
         w1
       = (Return (HttpResponseRedirect (PyInt 7)), w2)
    /\ (status <$> workflows (db w2) !! 7) = Some "workflow_abort"
    /\ schedules (db w2) !! "sqlreview-timing-07"
       = Some {| next_run := Sample.at_ 2030 1 2 8 0 0;
                 scheduled_workflow := PyStr "07" |}.
Proof.
  do 2 eexists. split; [vm_compute; reflexivity|].
  split; [vm_compute; reflexivity|]. split; reflexivity.
Qed.

(** ** The status query *)

Lemma int_nonempty s k : Py.int s = Some k -> String.eqb s "" = false.
Proof. destruct s; [intros H; vm_compute in H; discriminate H | reflexivity]. Qed.

Lemma get_workflow_status_reads query st s k row :
  POST query !! "workflow_id" = Some s ->
  Py.int s = Some k ->
  workflows st !! k = Some row ->
  get_workflow_status query st = status_answer (status row).
Proof.
  intros Hs Hint Hrow. unfold get_workflow_status.
  now rewrite Hs, (int_nonempty s k Hint), Hint, Hrow.
Qed.

(** X10. The status query reads what the transitions wrote: in the store
    a redirecting cancel, schedule or execute call leaves, a query for the
    same workflow answers workflow_abort, workflow_timingtask, and
    workflow_queuing or workflow_finish by the mode. *)
Theorem status_query_after_transition (env : Env) (request query : HttpRequest)
    (w w' : World) (s : string) (k : Z) (st : string) :
  moved_to env request w w' k st ->
  POST query !! "workflow_id" = Some s ->
  Py.int s = Some k ->
  get_workflow_status query (db w') = status_answer st.
Proof.
  intros Hmoved Hs Hint.
  destruct Hmoved as [[Hrun ->] | [(s' & Hrun & Hint' & ->)
                     | [(Hrun & Hmode & ->) | (Hrun & Hmode & ->)]]].
  - apply cancel_redirect_inv in Hrun as (k' & [= <-] & Hrun).
    destruct Hrun as (s2 & row & remark & _ & _ & _ & _ & _ & Hwf & _).
    rewrite (get_workflow_status_reads query (db w') s k
               (set_status "workflow_abort" row) Hs Hint); [reflexivity|].
    rewrite Hwf. apply lookup_insert_eq.
  - apply timing_task_redirect_inv in Hrun as (s2 & [= <-] & Hrun).
    destruct Hrun as (rd & t & k0 & row & a & _ & _ & _ & _ & Hint2 & _ & _
                      & Hwf & _).
    rewrite Hint' in Hint2. injection Hint2 as <-.
    rewrite (get_workflow_status_reads query (db w') s k
               (set_status "workflow_timingtask" row) Hs Hint); [reflexivity|].
    rewrite Hwf. apply lookup_insert_eq.
  - apply execute_redirect_inv in Hrun as (s2 & k' & _ & _ & _ & [= <-] & Hrun).
    destruct Hrun as (a & _ & _ & _ & Hrun). rewrite Hmode in Hrun. cbn in Hrun.
    destruct Hrun as (row & _ & Hwf & _).
    rewrite (get_workflow_status_reads query (db w') s k
               (set_status "workflow_queuing" row) Hs Hint); [reflexivity|].
    rewrite Hwf. apply lookup_insert_eq.
  - apply execute_redirect_inv in Hrun as (s2 & k' & _ & _ & _ & [= <-] & Hrun).
    destruct Hrun as (a & _ & _ & _ & Hrun). rewrite Hmode in Hrun. cbn in Hrun.
    destruct Hrun as (row & _ & Hwf & _).
    rewrite (get_workflow_status_reads query (db w') s k
               (set_finish_time (now env) (set_status "workflow_finish" row)) Hs Hint);
      [reflexivity|].
    rewrite Hwf. apply lookup_insert_eq.
Qed.

Lemma status_query_after_transition_witness :
  get_workflow_status (Sample.form Sample.carol [("workflow_id", " 7 ")])
    (db (snd (cancel (Sample.env Sample.single_level None Sample.ten_o_clock)
                (Sample.form Sample.alice
                   [("workflow_id", "7"); ("cancel_remark", "typo")])
                (Sample.world "workflow_review_pass"))))
  = status_answer "workflow_abort".
Proof.
  apply (status_query_after_transition
           (Sample.env Sample.single_level None Sample.ten_o_clock)
           (Sample.form Sample.alice [("workflow_id", "7"); ("cancel_remark", "typo")])
           _ (Sample.world "workflow_review_pass") _ " 7 " 7);
    [left; split; [vm_compute; reflexivity | reflexivity]
    | reflexivity | reflexivity].
Defined.

(** ** Cancel, the notification *)

(** X11. Whatever the request, the store and the collaborators: cancel
    enqueues at most one task, the notification, and only after its
    transaction committed, with the gate permitting the phase "Cancel" and
    the audit record of the workflow, read again after the commit, in
    status audit_abort or audit_reject; the task carries that record's id,
    the cancel_remark, timeout 60 and the name sqlreview-cancel-<number>.
    With collaborators that answer, commit, gate and such a record
    suffice. A call that submitted no decision leaves the audit records
    as they were, so a cancel past review notifies only if the record was
    aborted or rejected already. *)
Theorem cancel_notifies (env : Env) (request : HttpRequest) (w : World) :
  cancel_notification env request w.
Proof.
  unfold cancel_notification.
  run_through.
  all: frame.
  all: cbn [db journal audits put_workflow put_schedules put_decision put_log].
  all: split; [cbn; intros Hnone; try discriminate Hnone; reflexivity|].
  all: split.
  all: try (left; reflexivity).
  all: try (right; do 4 eexists;
            split; [reflexivity|]; split; [eassumption|];
            split; [reflexivity|]; split; [reflexivity|];
            split; [reflexivity|];
            split; [rewrite ?find_decide_audit;
                    match goal with
                    | H : find _ _ = Some _ |- _ => rewrite H
                    end; reflexivity|];
            split; [eassumption | reflexivity]).
  all: intros Hrel Hcommit Hgate text k a Htext Hint Hfind Hsettled.
  all: try discriminate Hcommit.
  all: try no_fault.
  all: try congruence.
  all: rewrite ?find_decide_audit in Hfind.
  all: simplify_eq.
  all: try match goal with
           | H : find ?p ?l = Some _, H' : _ <$> find ?p ?l = Some _ |- _ =>
               rewrite H in H'; cbn in H'; simplify_eq
           end.
  all: first [eexists; reflexivity | congruence].
Qed.

(** Cancel by the submitter while in review: the abort decision sets the
    record, which the notification then finds. *)
Example cancel_in_review_notifies :
  exists w',
    cancel (Sample.env Sample.single_level (Some "Cancel") Sample.ten_o_clock)
      (Sample.form Sample.alice [("workflow_id", "7"); ("cancel_remark", "typo")])
      (Sample.world "workflow_manreviewing")
    = (Return (HttpResponseRedirect (PyInt 7)), w')
    /\ enqueued (journal w') = [notify_for_audit 70 "typo" 60 "sqlreview-cancel-7"].
Proof. eexists. split; [vm_compute; reflexivity | reflexivity]. Qed.

(** Cancel past review, the record still waiting: committed, the gate
    open, and no notification. *)
Example cancel_past_review_is_silent :
  exists w',
    cancel (Sample.env Sample.single_level None Sample.ten_o_clock)
      (Sample.form Sample.alice [("workflow_id", "7"); ("cancel_remark", "typo")])
      (Sample.world "workflow_review_pass")
    = (Return (HttpResponseRedirect (PyInt 7)), w')
    /\ committed (journal w') = true
    /\ enqueued (journal w') = [].
Proof. eexists. split; [vm_compute; reflexivity | split; reflexivity]. Qed.

(** ** OSC control *)

(** X12. OSC control of a workflow that exists (and whose engine is
    obtained) always answers: the engine of the row's instance is asked
    once, with the command and sqlsha1 of the form; when it raises, the
    answer has total 0, no rows and the exception as msg; otherwise total
    is the number of rows and msg the engine's error. The store is as
    before either way. *)
Theorem osc_control_answers (env : Env) (request : HttpRequest) (w : World)
    (s : string) (k : Z) (row : SqlWorkflow) :
  POST request !! "workflow_id" = Some s ->
  Py.int s = Some k ->
  workflows (db w) !! k = Some row ->
  osc_answer env request w row.
Proof.
  intros Hs Hint Hrow. unfold osc_answer.
  run_through.
  all: do 2 eexists; split; [reflexivity|]; repeat split.
Qed.

Lemma osc_control_answers_witness :
  osc_answer Outage.env_engine_down
    (Sample.form Sample.carol [("workflow_id", "7"); ("command", "kill")])
    (Sample.world "workflow_executing") (Sample.workflow "workflow_executing").
Proof.
  apply (osc_control_answers _ _ _ "7" 7); reflexivity.
Defined.

(** The run of the witness: the engine is down, the view answers. *)
Example osc_control_reports_engine_failure :
  exists w',
    osc_control Outage.env_engine_down
      (Sample.form Sample.carol [("workflow_id", "7"); ("command", "kill")])
      (Sample.world "workflow_executing")
    = (Return (osc_response 0 []
                 (Some (Caught (CollaboratorError "engine unreachable")))), w').
Proof. eexists. vm_compute. reflexivity. Qed.

(** X13. OSC control looks the workflow up outside its try block: when
    the form text denotes no row, the exception of the lookup leaves the
    view (ValueError for a text that is not a number, DoesNotExist
    otherwise), the engine is never asked and the world is as before. *)
Theorem osc_control_without_workflow (env : Env) (request : HttpRequest)
    (w : World) :
  (forall s k,
     POST request !! "workflow_id" = Some s -> Py.int s = Some k ->
     workflows (db w) !! k = None) ->
  osc_control env request w = (Raise (osc_lookup_error request), w).
Proof.
  intros Hnone. unfold osc_lookup_error.
  run_through; try reflexivity.
  all: match goal with
       | Hi : Py.int _ = Some _, H : workflows _ !! _ = Some _ |- _ =>
           rewrite (Hnone _ _ eq_refl Hi) in H; discriminate H
       end.
Qed.

Lemma osc_control_without_workflow_witness :
  osc_control (Sample.env Sample.single_level None Sample.ten_o_clock)
    (Sample.form Sample.carol [("workflow_id", "8"); ("command", "kill")])
    (Sample.world "workflow_executing")
  = (Raise DoesNotExist, Sample.world "workflow_executing").
Proof.
  apply (osc_control_without_workflow
           (Sample.env Sample.single_level None Sample.ten_o_clock)
           (Sample.form Sample.carol [("workflow_id", "8"); ("command", "kill")])).
  intros s k Hs Hint. vm_compute in Hs. injection Hs as <-.
  vm_compute in Hint. injection Hint as <-. reflexivity.
Defined.

(** ** The status query, outcome by outcome *)

(** X14. The status query answers a status exactly when the workflow_id
    text denotes a number and a row has that number, and then the status
    of that row; the answer with status -1 is given for the empty text and
    no other; a text that is not a number, blank text included, raises
    ValueError; a number without a row raises Http404; a form without the
    field raises MultiValueDictKeyError. *)
Theorem status_query_outcomes (request : HttpRequest) (st : Store) :
  status_query_cases request st.
Proof.
  unfold status_query_cases, get_workflow_status, status_answer, empty_id_answer.
  destruct (POST request !! "workflow_id") as [s|] eqn:Hs.
  2: { repeat split; try discriminate; try reflexivity.
       - intros (? & ? & ? & ? & _); discriminate.
       - intros (? & ? & _); discriminate.
       - intros (? & ? & ? & _); discriminate. }
  destruct (String.eqb_spec s "") as [->|Hne].
  { repeat split; try discriminate; try reflexivity.
    - intros (? & ? & ? & [= <-] & Hint & _). vm_compute in Hint. discriminate.
    - intros (? & [= <-] & Hne & _). now contradict Hne.
    - intros (? & ? & [= <-] & Hint & _). vm_compute in Hint. discriminate. }
  destruct (Py.int s) as [k|] eqn:Hint.
  2: { repeat split; try discriminate; try reflexivity.
       - intros (? & ? & ? & [= <-] & Hint' & _). congruence.
       - intros [= ->]. now contradict Hne.
       - intros _. exists s. repeat split; assumption.
       - intros (? & ? & [= <-] & Hint' & _). congruence. }
  destruct (workflows st !! k) as [row|] eqn:Hrow.
  - repeat split; try discriminate.
    + intros [= <-]. exists s, k, row. repeat split; assumption.
    + intros (? & ? & ? & [= <-] & Hint' & Hrow' & <-). congruence.
    + intros [= ->]. now contradict Hne.
    + intros (? & [= <-] & _ & Hint'). congruence.
    + intros (? & ? & [= <-] & Hint' & Hrow'). congruence.
  - repeat split; try discriminate; try reflexivity.
    + intros (? & ? & ? & [= <-] & Hint' & Hrow' & _). congruence.
    + intros [= ->]. now contradict Hne.
    + intros (? & [= <-] & _ & Hint'). congruence.
    + intros _. exists s, k. repeat split; assumption.
Qed.

(** Blank text is not the empty text: the query raises. *)
Example status_query_blank :
  get_workflow_status (Sample.form Sample.carol [("workflow_id", " ")])
    (Sample.store "workflow_review_pass")
  = inl (Builtin ValueError).
Proof. reflexivity. Qed.

(** ** Permissions *)

(** X15. Each view with a permission check makes it before anything
    else: without sql.sql_review, approve and alter run date raise
    PermissionDenied, and without both sql.sql_execute and
    sql.sql_execute_for_resource_group, execute and schedule do, whatever
    the form holds, with no collaborator called and nothing written. *)
Theorem permission_denied_first (request : HttpRequest) : denied_first request.
Proof.
  unfold denied_first. split.
  - intros Hperm env w. unfold passed, alter_run_date, permission_required.
    rewrite Hperm. split; reflexivity.
  - intros Ha Hb env w. unfold execute, timing_task.
    cbv zeta. rewrite Ha, Hb. split; reflexivity.
Qed.

Lemma permission_denied_first_witness :
  execute (Sample.env Sample.single_level None Sample.ten_o_clock)
    (Sample.form Sample.carol [("workflow_id", "7"); ("mode", "auto")])
    (Sample.world "workflow_review_pass")
  = (Raise PermissionDenied, Sample.world "workflow_review_pass")
  /\ timing_task (Sample.env Sample.single_level None Sample.ten_o_clock)
       (Sample.form Sample.carol [("workflow_id", "7"); ("mode", "auto")])
       (Sample.world "workflow_review_pass")
     = (Raise PermissionDenied, Sample.world "workflow_review_pass").
Proof.
  apply (proj2 (permission_denied_first
                  (Sample.form Sample.carol [("workflow_id", "7"); ("mode", "auto")]))
           eq_refl eq_refl).
Defined.

(** ** Approve, the row missing *)

(** X16. An approve call for a number that has an audit record but no
    row in the workflow table, the gateway answering success: the
    decision is submitted, the status update then fails, and the
    transaction takes the decision back with it; the error page shows the
    failed update, the store is as before and no notification is
    enqueued. *)
Theorem passed_without_row (env : Env) (request : HttpRequest) (w : World)
    (s : string) (wid : Z) (a : WorkflowAudit) :
  has_perm (user request) "sql.sql_review" = true ->
  POST request !! "workflow_id" = Some s ->
  Py.int s = Some wid ->
  wid <> 0 ->
  ext_can_review env (db w) (user request) (PyInt wid) 2 = true ->
  reliable env ->
  find (audit_of wid (sqlreview (const env))) (audits (db w)) = Some a ->
  workflows (db w) !! wid = None ->
  let d := {| decided_audit := audit_id a;
              decided_status := audit_success (const env);
              decided_by := username (user request);
              decided_remark := default "" (POST request !! "audit_remark") |} in
  ext_audit_status env (db w) d = audit_success (const env) ->
  approve_rolled_back env request w d.
Proof.
  intros Hperm Hs Hint Hnz Hrev Hrel Ha Hrow d Hsuccess.
  apply Z.eqb_neq in Hnz. subst d. unfold approve_rolled_back.
  do 2 eexists. split.
  - run_through; try reflexivity.
    all: match goal with
         | H : (_ =? _) = false |- _ =>
             rewrite Hsuccess, Z.eqb_refl in H; discriminate H
         end.
  - cbn [journal db]. rewrite <- ?app_assoc.
    split; [reflexivity|]. repeat split.
Qed.

Lemma passed_without_row_witness :
  approve_rolled_back
    (Sample.env Sample.single_level None Sample.ten_o_clock)
    (Sample.form Sample.bob [("workflow_id", "7")])
    {| db := {| workflows := ∅; audits := audits (Sample.store "");
                decisions := []; audit_log := []; schedules := ∅ |};
       journal := [] |}
    {| decided_audit := 70; decided_status := 1; decided_by := "bob";
       decided_remark := "" |}.
Proof.
  apply (passed_without_row
           (Sample.env Sample.single_level None Sample.ten_o_clock)
           (Sample.form Sample.bob [("workflow_id", "7")])
           _ "7" 7
           {| audit_id := 70; workflow_id := 7; workflow_type := 2;
              current_status := 0 |});
    [reflexivity | reflexivity | reflexivity | lia | reflexivity
    | intros st c; reflexivity | reflexivity | reflexivity | reflexivity].
Defined.

(** ** The decision trail *)

Lemma passed_decisions env request w :
  decisions_as_submitted request (approval env request) (passed env request) w.
Proof.
  unfold decisions_as_submitted, approval.
  run_through.
  all: frame.
  all: cbn; split; [lia|]; split; [|now rewrite ?app_nil_r].
  all: intros dec Hdec; repeat (destruct Hdec as [<- | Hdec]); try destruct Hdec.
  all: cbn; repeat split.
Qed.

Lemma cancel_decisions env request w :
  decisions_as_submitted request (refusal env request) (cancel env request) w.
Proof.
  unfold decisions_as_submitted, refusal.
  run_through.
  all: frame.
  all: cbn; split; [lia|]; split; [|now rewrite ?app_nil_r].
  all: intros dec Hdec; repeat (destruct Hdec as [<- | Hdec]); try destruct Hdec.
  all: cbn; repeat split; auto.
Qed.

Lemma timing_task_decisions env request w :
  decisions_as_submitted request (fun _ => False) (timing_task env request) w.
Proof.
  unfold decisions_as_submitted.
  run_through.
  all: frame.
  all: cbn; split; [lia|]; split; [|now rewrite ?app_nil_r].
  all: intros dec Hdec; destruct Hdec.
Qed.

(** X17. Whatever the request, the store and the collaborators: approve
    and cancel submit at most one decision a call, in the name of the
    requesting user; approve only audit_success, with the audit_remark of
    the form or the empty text; cancel only audit_abort, or audit_reject
    for a user holding sql.sql_review, with the cancel_remark of the form;
    schedule none. The decision trail grows by exactly the decision of a
    committed transaction: a decision whose transaction rolled back is not
    on it. *)
Theorem decisions_submitted (env : Env) (request : HttpRequest) (w : World) :
  decisions_as_submitted request (approval env request) (passed env request) w
  /\ decisions_as_submitted request (refusal env request) (cancel env request) w
  /\ decisions_as_submitted request (fun _ => False) (timing_task env request) w.
Proof.
  split; [apply passed_decisions|].
  split; [apply cancel_decisions | apply timing_task_decisions].
Qed.

(** ** Schedule, on every call *)

(** X18. Whatever the request, the store and the collaborators: the
    schedule view enqueues no task, removes nothing from the registry,
    submits no decision and changes no audit record; the only registry
    entry it can write is the one named after the workflow_id text of the
    form. *)
Theorem timing_task_never (env : Env) (request : HttpRequest) (w : World) :
  schedule_bounds env request w.
Proof.
  unfold schedule_bounds.
  run_through.
  all: frame.
  all: cbn; repeat split; intros name Hname; try reflexivity.
  all: rewrite lookup_insert_ne; [reflexivity|].
  all: intros Heq; apply Hname; f_equal; exact (append_inj_l _ _ _ Heq).
Qed.

(** ** The row missing *)

(** X19. Cancel and schedule look the row up outside their try blocks:
    for a workflow_id that denotes a number without a row, cancel, the
    number not being 0, and schedule, the permission held and the run date
    present and not below the current time, raise DoesNotExist, with no
    collaborator called and the world as before. *)
Theorem lookup_without_row (env : Env) (request : HttpRequest) (w : World)
    (s : string) (k : Z) :
  POST request !! "workflow_id" = Some s ->
  Py.int s = Some k ->
  workflows (db w) !! k = None ->
  (k <> 0 -> cancel env request w = (Raise DoesNotExist, w))
  /\ (has_perm (user request) "sql.sql_execute"
      || has_perm (user request) "sql.sql_execute_for_resource_group" = true ->
      forall rd,
        POST request !! "run_date" = Some rd ->
        Py.lt rd (strftime_seconds (now env)) = false ->
        timing_task env request w = (Raise DoesNotExist, w)).
Proof.
  intros Hs Hint Hnone. split.
  - intros Hnz. apply Z.eqb_neq in Hnz. run_through; reflexivity.
  - intros Hperm rd Hrd Hlt. run_through; reflexivity.
Qed.

Lemma lookup_without_row_witness :
  cancel (Sample.env Sample.single_level None Sample.ten_o_clock)
    (Sample.form Sample.carol [("workflow_id", "8"); ("cancel_remark", "typo")])
    (Sample.world "workflow_review_pass")
  = (Raise DoesNotExist, Sample.world "workflow_review_pass")
  /\ timing_task (Sample.env Sample.single_level None Sample.ten_o_clock)
       (Sample.form Sample.alice
          [("workflow_id", "8"); ("run_date", "2030-01-02 08:00")])
       (Sample.world "workflow_review_pass")
     = (Raise DoesNotExist, Sample.world "workflow_review_pass").
Proof.
  split.
  - apply (lookup_without_row _ _ _ "8" 8); [reflexivity | reflexivity | reflexivity | lia].
  - apply (proj2 (lookup_without_row
                    (Sample.env Sample.single_level None Sample.ten_o_clock)
                    (Sample.form Sample.alice
                       [("workflow_id", "8"); ("run_date", "2030-01-02 08:00")])
                    (Sample.world "workflow_review_pass") "8" 8
                    eq_refl eq_refl eq_refl)
             eq_refl "2030-01-02 08:00" eq_refl eq_refl).
Defined.

(** X20. Execute never reads the row. For a number that has an audit
    record but no row, a call in automatic or manual mode that passes its
    guards fails at the status update: DatabaseError leaves the view,
    after the two guards and the audit gateway were asked, with nothing
    written. *)
Theorem execute_missing_row (env : Env) (request : HttpRequest) (w : World)
    (wid : Z) (a : WorkflowAudit) :
  execute_admitted env request w wid ->
  POST request !! "mode" = Some "auto" \/ POST request !! "mode" = Some "manual" ->
  reliable env ->
  find (audit_of wid (sqlreview (const env))) (audits (db w)) = Some a ->
  workflows (db w) !! wid = None ->
  execute_without_row env request w wid.
Proof.
  intros (Hperm & (s & Hs & Hint) & Hnz & Hexec & Hwin) Hmode Hrel Ha Hnone.
  apply Z.eqb_neq in Hnz.
  unfold execute_without_row.
  destruct Hmode as [Hmode | Hmode].
  - assert (Hauto : is_str (POST request !! "mode") "auto" = true)
      by (rewrite Hmode; reflexivity).
    eexists. split; [run_through; reflexivity|].
    cbn [db journal]. rewrite <- !app_assoc. split; reflexivity.
  - assert (Hauto : is_str (POST request !! "mode") "auto" = false)
      by (rewrite Hmode; reflexivity).
    assert (Hman : is_str (POST request !! "mode") "manual" = true)
      by (rewrite Hmode; reflexivity).
    eexists. split; [run_through; reflexivity|].
    cbn [db journal]. rewrite <- !app_assoc. split; reflexivity.
Qed.

Lemma execute_missing_row_witness :
  execute_without_row
    (Sample.env Sample.single_level None Sample.ten_o_clock)
    (Sample.form Sample.alice [("workflow_id", "7"); ("mode", "manual")])
    {| db := {| workflows := ∅; audits := audits (Sample.store "");
                decisions := []; audit_log := []; schedules := ∅ |};
       journal := [] |}
    7.
Proof.
  apply (execute_missing_row _ _ _ _
           {| audit_id := 70; workflow_id := 7; workflow_type := 2;
              current_status := 0 |});
    [| right; reflexivity | intros st c; reflexivity | reflexivity | reflexivity].
  split; [reflexivity|]. split; [exists "7"; split; reflexivity|].
  split; [lia|]. split; reflexivity.
Defined.
